(** * Financial-QA-Assistant: the document pipeline and the Q&A gateway

    A shallow embedding of [src/app.py]: the metric patterns and their
    backtracking matcher ([re.findall]), the number normaliser
    ([float]), [DocumentProcessor] and [OllamaClient].

    Conventions.
    - A Python [str] is a [string]; every [ascii] stands for the code point
      of the same number, so the model covers texts over U+0000..U+00FF.
    - A Python [float] is kept as the exact decimal it is parsed from
      (a reduced rational); Python rounds that decimal to the nearest
      binary64, so equal values here are equal floats there.
    - Library calls that can raise ([PyPDF2.PdfReader], [pandas.read_excel],
      [requests.post], [response.json]) are modelled by their outcome: a
      raised exception ([inl]) or a value ([inr]). *)

From Stdlib Require Import Ascii QArith DecimalString DecimalZ DecimalPos.
From Stdlib Require String.
From stdpp Require Import gmap strings list fin_maps.

(** ** Characters and strings *)

Definition code (c : ascii) : N := N_of_ascii c.

Definition in_range (lo hi c : ascii) : bool :=
  ((code lo <=? code c) && (code c <=? code hi))%N.

(** [str.lower()] on one code point below U+0100: A-Z, and the Latin-1
    capitals U+00C0..U+00DE without the multiplication sign U+00D7. *)
Definition lower_char (c : ascii) : ascii :=
  let n := code c in
  if ((65 <=? n) && (n <=? 90))%N then ascii_of_N (n + 32)
  else if ((192 <=? n) && (n <=? 222) && negb (n =? 215))%N then ascii_of_N (n + 32)
  else c.

Definition chars (s : string) : list ascii := String.list_ascii_of_string s.
Definition text_of (l : list ascii) : string := String.string_of_list_ascii l.

Definition lower (s : string) : string := text_of (map lower_char (chars s)).

(** [s.replace(c, '')] for a one-character [c]. *)
Definition remove_char (c : ascii) (s : string) : string :=
  text_of (filter (λ x, x ≠ c) (chars s)).

(** ** Regular expressions: the fragment the patterns are written in *)

Inductive cls_item :=
  | CRange (lo hi : ascii)   (* lo-hi *)
  | CLit (c : ascii)         (* one literal character *)
  | CSpace.                  (* \s *)

Inductive regex :=
  | RLit (s : string)        (* a run of ordinary characters *)
  | REsc (c : ascii)         (* an escaped character, as \. *)
  | RSeq (r1 r2 : regex)
  | RAlt (r1 r2 : regex)     (* r1|r2 *)
  | RNGroup (r : regex)      (* (?:r) *)
  | RGroup (r : regex)       (* (r), the capture group *)
  | RStar (c : list cls_item)  (* [c]* , greedy *)
  | RPlus (c : list cls_item)  (* [c]+ , greedy *)
  | ROpt (r : regex).          (* r? , greedy *)

(** The concrete syntax of a pattern, to compare with the source text. *)
Definition show_item (i : cls_item) : string :=
  match i with
  | CRange lo hi => String lo (String "-" (String hi ""))
  | CLit c => String c ""
  | CSpace => "\s"
  end.

Fixpoint show_cls (c : list cls_item) : string :=
  match c with
  | [] => ""
  | i :: c' => show_item i +:+ show_cls c'
  end.

Fixpoint show (r : regex) : string :=
  match r with
  | RLit s => s
  | REsc c => String "\" (String c "")
  | RSeq r1 r2 => show r1 +:+ show r2
  | RAlt r1 r2 => show r1 +:+ "|" +:+ show r2
  | RNGroup r => "(?:" +:+ show r +:+ ")"
  | RGroup r => "(" +:+ show r +:+ ")"
  | RStar c => "[" +:+ show_cls c +:+ "]*"
  | RPlus c => "[" +:+ show_cls c +:+ "]+"
  | ROpt r => show r +:+ "?"
  end.

(** [\s] on a [str] pattern is Unicode white space; below U+0100 that is
    U+0009..U+000D, U+001C..U+0020, U+0085 and U+00A0. *)
Definition is_space (c : ascii) : bool :=
  let n := code c in
  (((9 <=? n) && (n <=? 13)) || ((28 <=? n) && (n <=? 32))
   || (n =? 133) || (n =? 160))%N.

Definition item_has (i : cls_item) (c : ascii) : bool :=
  match i with
  | CRange lo hi => in_range lo hi c
  | CLit x => bool_decide (x = c)
  | CSpace => is_space c
  end.

Definition cls_has (cl : list cls_item) (c : ascii) : bool :=
  existsb (λ i, item_has i c) cl.

Arguments cls_has : simpl never.

(** ** The backtracking matcher

    Continuation-passing, as the engine of [re] explores a pattern: the
    continuation is the rest of the pattern; [None] makes the caller try its
    next choice.  A match result is the text of the capture group, if it took
    part, and the unread rest of the subject. *)

Definition mresult : Type := option (list ascii) * list ascii.

(** Does the literal [l] start [s]?  Returns what follows it. *)
Fixpoint lit_match (l s : list ascii) : option (list ascii) :=
  match l, s with
  | [], _ => Some s
  | a :: l', b :: s' => if bool_decide (a = b) then lit_match l' s' else None
  | _ :: _, [] => None
  end.

(** Greedy repetition of a class: consume while possible, give characters
    back one by one while the continuation fails. *)
Fixpoint star_cls (f : ascii → bool) (s : list ascii)
    (k : list ascii → option mresult) : option mresult :=
  match s with
  | c :: s' =>
      if f c then
        match star_cls f s' k with
        | Some r => Some r
        | None => k s
        end
      else k s
  | [] => k []
  end.

Fixpoint rmatch (r : regex) (s : list ascii) (cap : option (list ascii))
    (k : list ascii → option (list ascii) → option mresult) : option mresult :=
  match r with
  | RLit l =>
      match lit_match (chars l) s with
      | Some s' => k s' cap
      | None => None
      end
  | REsc c =>
      match s with
      | b :: s' => if bool_decide (c = b) then k s' cap else None
      | [] => None
      end
  | RSeq r1 r2 => rmatch r1 s cap (λ s1 cap1, rmatch r2 s1 cap1 k)
  | RAlt r1 r2 =>
      match rmatch r1 s cap k with
      | Some x => Some x
      | None => rmatch r2 s cap k
      end
  | RNGroup r1 => rmatch r1 s cap k
  | RGroup r1 =>
      rmatch r1 s cap (λ s1 _, k s1 (Some (take (length s - length s1) s)))
  | RStar cl => star_cls (cls_has cl) s (λ s1, k s1 cap)
  | RPlus cl =>
      match s with
      | c :: s' =>
          if cls_has cl c then star_cls (cls_has cl) s' (λ s1, k s1 cap)
          else None
      | [] => None
      end
  | ROpt r1 =>
      match rmatch r1 s cap k with
      | Some x => Some x
      | None => k s cap
      end
  end.

(** A match of the whole pattern starting exactly at the head of [s]. *)
Definition match_here (r : regex) (s : list ascii) : option mresult :=
  rmatch r s None (λ s1 cap, Some (cap, s1)).

(** [re.findall] for a pattern with one group: the group's text for every
    non-overlapping match, scanning left to right.  [skip] counts the
    characters still covered by the match found last.  After an empty match
    the scan moves on by one character; the patterns below never match the
    empty text ([metric_match_consumes]). *)
Fixpoint findall_from (r : regex) (s : list ascii) (skip : nat) : list (list ascii) :=
  match s with
  | [] =>
      match skip, match_here r [] with
      | O, Some (cap, _) => [default [] cap]
      | _, _ => []
      end
  | _ :: s' =>
      match skip with
      | S n => findall_from r s' n
      | O =>
          match match_here r s with
          | Some (cap, rest) =>
              default [] cap :: findall_from r s' (length s - length rest - 1)
          | None => findall_from r s' 0
          end
      end
  end.

Definition findall (r : regex) (s : string) : list string :=
  map text_of (findall_from r (chars s) 0).

(** ** The metric patterns ([patterns] in [extract_financial_metrics]) *)

Definition sep_cls : list cls_item := [CSpace; CLit ":"; CLit "$"].
Definition num_cls : list cls_item := [CRange "0" "9"; CLit ","].
Definition digit_cls : list cls_item := [CRange "0" "9"].

(** [[\s:$]*([0-9,]+(?:\.[0-9]+)?)], the part every pattern ends with. *)
Definition number_tail : regex :=
  RSeq (RStar sep_cls)
       (RGroup (RSeq (RPlus num_cls)
                     (ROpt (RNGroup (RSeq (REsc ".") (RPlus digit_cls)))))).

(** [a|b|c] for the labels of one metric. *)
Fixpoint alternatives (syn : string) (syns : list string) : regex :=
  match syns with
  | [] => RLit syn
  | syn' :: syns' => RAlt (RLit syn) (alternatives syn' syns')
  end.

Definition label_re (syns : list string) : regex :=
  match syns with
  | [] => RLit ""
  | syn :: syns' => RNGroup (alternatives syn syns')
  end.

Definition metric_re (syns : list string) : regex :=
  RSeq (label_re syns) number_tail.

(** The labels of each metric, in the order of the source. *)
Definition synonyms : list (string * list string) :=
  [ ("revenue", ["revenue"; "sales"; "income"]);
    ("expenses", ["expenses"; "costs"]);
    ("profit", ["profit"; "net income"; "earnings"]);
    ("assets", ["total assets"; "assets"]);
    ("liabilities", ["total liabilities"; "liabilities"]);
    ("equity", ["equity"; "shareholders equity"]) ].

Definition patterns : list (string * regex) :=
  map (λ e, (e.1, metric_re e.2)) synonyms.

(** ** Values of the metrics mapping *)

Inductive py_value :=
  | PyFloat (q : Q)
  | PyStr (s : string).

Definition is_digit (c : ascii) : bool := in_range "0" "9" c.

Definition digit_val (c : ascii) : N := (code c - 48)%N.

(** The number a run of decimal digits denotes. *)
Definition digits_val (ds : list ascii) : N :=
  fold_left (λ acc c, (10 * acc + digit_val c)%N) ds 0%N.

(** The text before the first [c], and the text after it if [c] occurs. *)
Fixpoint split_at (c : ascii) (s : list ascii) : list ascii * option (list ascii) :=
  match s with
  | [] => ([], None)
  | x :: s' =>
      if bool_decide (x = c) then ([], Some s')
      else let '(a, b) := split_at c s' in (x :: a, b)
  end.

(** [float(s)] for a text [s] over the digits and the point, the only
    characters a captured token keeps once its commas are removed
    ([metric_match_sound], [clean_token]): digits, at most one point, at
    least one digit; any other text raises [ValueError] ([None]).  Signs,
    exponents, underscores, blanks, [inf] and [nan], which [float] also
    reads, need characters that never reach it here. *)
Definition py_float (s : string) : option Q :=
  let '(ip, fp) := split_at "." (chars s) in
  let fd := default [] fp in
  if forallb is_digit ip && forallb is_digit fd
     && negb (Nat.eqb (length ip + length fd) 0)
  then Some (Qred (Z.of_N (digits_val (ip ++ fd))
                   # Z.to_pos (10 ^ Z.of_nat (length fd))))
  else None.

(** ** [DocumentProcessor.extract_financial_metrics] *)

(** One turn of the loop over [patterns.items()]. *)
Definition extract_one (low : string) (metrics : gmap string py_value)
    (entry : string * regex) : gmap string py_value :=
  let '(metric, pattern) := entry in
  match findall pattern low with
  | first :: _ =>
      let value := remove_char "," first in
      match py_float value with
      | Some x => <[metric := PyFloat x]> metrics
      | None => <[metric := PyStr value]> metrics
      end
  | [] => metrics
  end.

Definition extract_financial_metrics (text : string) : gmap string py_value :=
  fold_left (extract_one (lower text)) patterns ∅.

Example show_patterns :
  map (λ e, (e.1, show e.2)) patterns =
  [ ("revenue", "(?:revenue|sales|income)[\s:$]*([0-9,]+(?:\.[0-9]+)?)");
    ("expenses", "(?:expenses|costs)[\s:$]*([0-9,]+(?:\.[0-9]+)?)");
    ("profit", "(?:profit|net income|earnings)[\s:$]*([0-9,]+(?:\.[0-9]+)?)");
    ("assets", "(?:total assets|assets)[\s:$]*([0-9,]+(?:\.[0-9]+)?)");
    ("liabilities", "(?:total liabilities|liabilities)[\s:$]*([0-9,]+(?:\.[0-9]+)?)");
    ("equity", "(?:equity|shareholders equity)[\s:$]*([0-9,]+(?:\.[0-9]+)?)") ].
Proof. reflexivity. Qed.

Example findall_scans_left_to_right :
  findall (metric_re ["revenue"; "sales"; "income"])
          "revenue: 100 ... revenue: 200 sales7.5.5 income ,5"
  = ["100"; "200"; "7.5"; ",5"].
Proof. reflexivity. Qed.

Example label_inside_label :
  map_to_list (extract_financial_metrics "Net Income: $45,000")
  ≡ₚ [("revenue", PyFloat 45000); ("profit", PyFloat 45000)].
Proof. vm_compute. apply perm_swap || reflexivity. Qed.

(** ** Exceptions and outcomes *)

(** The exception classes the handlers tell apart.  In [requests],
    [ConnectTimeout] derives from both [ConnectionError] and [Timeout], and
    [ReadTimeout] from [Timeout] only; [ConnectionError] stands for that class
    and its other subclasses, [OtherException] for any other [Exception]. *)
Inductive exn_class :=
  | ConnectionError
  | ConnectTimeout
  | ReadTimeout
  | OtherException.

(** A raised exception: its class and [str(e)]. *)
Record py_exn := Exn { exn_class_of : exn_class; exn_str : string }.

(** [isinstance(e, requests.exceptions.ConnectionError)] *)
Definition is_connection_error (e : py_exn) : bool :=
  match exn_class_of e with
  | ConnectionError | ConnectTimeout => true
  | ReadTimeout | OtherException => false
  end.

(** [isinstance(e, requests.exceptions.Timeout)] *)
Definition is_timeout (e : py_exn) : bool :=
  match exn_class_of e with
  | ConnectTimeout | ReadTimeout => true
  | ConnectionError | OtherException => false
  end.

(** How a call ends: with a value, or with an exception leaving it. *)
Inductive outcome (A : Type) :=
  | Returns (a : A)
  | Raises (e : py_exn).

Arguments Returns {A} a.
Arguments Raises {A} e.

Definition nl : string := String "010" "".

(** ** [DocumentProcessor] *)

(** What [PyPDF2] makes of a file: [PdfReader(pdf_file)] raises, or gives
    pages whose [extract_text()] each return a text or raise. *)
Definition pdf_source : Type := outcome (list (outcome string)).

(** The loop [for page in pdf_reader.pages: text += page.extract_text() + "\n"]. *)
Fixpoint read_pages (pages : list (outcome string)) (text : string) : outcome string :=
  match pages with
  | [] => Returns text
  | Returns page_text :: pages' => read_pages pages' (text +:+ page_text +:+ nl)
  | Raises e :: _ => Raises e
  end.

(** The second component lists the messages shown with [st.error]. *)
Definition extract_pdf_text (pdf_file : pdf_source) : outcome string * list string :=
  let body :=
    match pdf_file with
    | Returns pages => read_pages pages ""
    | Raises e => Raises e
    end in
  match body with
  | Returns text => (Returns text, [])
  | Raises e => (Returns "", ["Error reading PDF: " +:+ exn_str e])
  end.

(** [d[k] = v] on a dict kept in insertion order. *)
Fixpoint dict_set {V : Type} (k : string) (v : V) (d : list (string * V)) : list (string * V) :=
  match d with
  | [] => [(k, v)]
  | (k', v') :: d' =>
      if bool_decide (k' = k) then (k, v) :: d' else (k', v') :: dict_set k v d'
  end.

Section DocumentProcessor.
(** [pandas.DataFrame] and its [to_string()] are left abstract. *)
Context {DataFrame : Type} (to_string : DataFrame → string).

Record sheet_data := SheetData { sheet_dataframe : DataFrame; sheet_text : string }.

(** What [pandas.read_excel(excel_file, sheet_name=None)] makes of a file:
    it raises, or gives the sheets by name, in workbook order. *)
Definition excel_source : Type := outcome (list (string * DataFrame)).

Definition extract_excel_data (excel_file : excel_source)
    : outcome (list (string * sheet_data)) * list string :=
  match excel_file with
  | Returns excel_data =>
      (Returns (fold_left (λ processed_data '(sheet_name, df),
                  let text_data := to_string df in
                  dict_set sheet_name (SheetData df text_data) processed_data)
                excel_data []), [])
  | Raises e => (Returns [], ["Error reading Excel file: " +:+ exn_str e])
  end.

(** The dict [self.extracted_data]; a key not set yet is [None]. *)
Record extraction := Extraction_ {
  excel_sheets : option (list (string * sheet_data));
  metrics : option (gmap string py_value);
  raw_text : option string
}.

Record processor := Processor {
  self_extracted_data : extraction;
  self_raw_text : string
}.

(** [DocumentProcessor()] *)
Definition new_processor : processor :=
  Processor (Extraction_ None None None) "".

(** An uploaded file, as each of the two readers sees it. *)
Record uploaded_file := Upload { as_pdf : pdf_source; as_excel : excel_source }.

(** The text and the sheets of [process_document]'s first part, by file
    type, with the messages shown; a reader's exception would leave the
    call. *)
Definition read_document (self : processor) (file : uploaded_file) (file_type : string)
    : outcome (processor * list string) :=
  if bool_decide (file_type = "pdf") then
    match extract_pdf_text (as_pdf file) with
    | (Returns t, ui) => Returns (Processor (self_extracted_data self) t, ui)
    | (Raises e, _) => Raises e
    end
  else if bool_decide (file_type = "excel") then
    match extract_excel_data (as_excel file) with
    | (Returns excel_data, ui) =>
        let all_text :=
          fold_left (λ all_text sheet, all_text +:+ sheet_text sheet.2 +:+ nl)
                    excel_data "" in
        let ed := self_extracted_data self in
        Returns (Processor (Extraction_ (Some excel_data) (metrics ed) (raw_text ed))
                           all_text, ui)
    | (Raises e, _) => Raises e
    end
  else Returns (self, []).

(** Returns [self.extracted_data]; the processor after the call and the
    messages shown come with it. *)
Definition process_document (self : processor) (file : uploaded_file) (file_type : string)
    : outcome (extraction * processor * list string) :=
  match read_document self file file_type with
  | Returns (self1, ui) =>
      let ed := self_extracted_data self1 in
      let ed' := Extraction_ (excel_sheets ed)
                   (Some (extract_financial_metrics (self_raw_text self1)))
                   (Some (self_raw_text self1)) in
      Returns (ed', Processor ed' (self_raw_text self1), ui)
  | Raises e => Raises e
  end.
End DocumentProcessor.

Arguments sheet_data : clear implicits.
Arguments extraction : clear implicits.
Arguments processor : clear implicits.
Arguments uploaded_file : clear implicits.
Arguments excel_source : clear implicits.

(** ** [OllamaClient] *)

Record client := Client { base_url : string }.

(** [OllamaClient()] *)
Definition default_client : client := Client "http://localhost:11434".

Record payload := Payload { model : string; prompt_field : string; stream : bool }.

(** The arguments of [requests.post]; the timeout is in seconds. *)
Record http_request := Request { url : string; json : payload; timeout : Z }.

(** A value read from the decoded body: a text, or anything else JSON can
    hold (given by its [repr]). *)
Inductive py_obj :=
  | ObjStr (s : string)
  | ObjOther (repr : string).

(** A response: its status, and what [response.json()['response']]
    evaluates to (decoding or the lookup may raise). *)
Record http_response := Response { status_code : Z; json_response : outcome py_obj }.

Definition indent : string := "            ".

(** [context[:2000]] *)
Definition truncate (context : string) : string := text_of (take 2000 (chars context)).

Definition full_prompt (prompt context : string) : string :=
  nl +:+ indent +:+ "Context from financial document:" +:+
  nl +:+ indent +:+ truncate context +:+ "  # Limit context to avoid token limits" +:+
  nl +:+ indent +:+
  nl +:+ indent +:+ "User Question: " +:+ prompt +:+
  nl +:+ indent +:+
  nl +:+ indent +:+ "Please answer the question based on the financial document context provided above. " +:+
  nl +:+ indent +:+ "Be specific and use numbers when available. If you cannot find the information, " +:+
  nl +:+ indent +:+ "say so clearly." +:+
  nl +:+ indent.

Definition request_of (self : client) (prompt context : string) : http_request :=
  Request (base_url self +:+ "/api/generate")
          (Payload "gemma:2b" (full_prompt prompt context) false)
          30.

(** [str(n)] for an [int]. *)
Definition str_of_int (n : Z) : string := NilZero.string_of_int (Z.to_int n).

Definition connection_message : string :=
  "Error: Could not connect to Ollama. Please make sure Ollama is running on localhost:11434".

(** The [try] block: [post] is [requests.post] as the environment answers. *)
Definition generate_response_body (self : client) (post : http_request → outcome http_response)
    (prompt context : string) : outcome py_obj :=
  match post (request_of self prompt context) with
  | Returns response =>
      if (status_code response =? 200)%Z then json_response response
      else Returns (ObjStr ("Error: Could not connect to Ollama (Status: "
                            +:+ str_of_int (status_code response) +:+ ")"))
  | Raises e => Raises e
  end.

(** The block with its two handlers, [ConnectionError] first, then
    [Exception]. *)
Definition generate_response (self : client) (post : http_request → outcome http_response)
    (prompt context : string) : outcome py_obj :=
  match generate_response_body self post prompt context with
  | Returns answer => Returns answer
  | Raises e =>
      if is_connection_error e then Returns (ObjStr connection_message)
      else Returns (ObjStr ("Error: " +:+ exn_str e))
  end.

(** ** Facts about strings and character classes *)

Lemma chars_app (a b : string) : chars (a +:+ b) = chars a ++ chars b.
Proof.
  induction a as [|c a IH]; [done|].
  change (chars (String c (a +:+ b)) = c :: (chars a ++ chars b)).
  unfold chars in *. simpl. by rewrite IH.
Qed.

Lemma text_of_chars (s : string) : text_of (chars s) = s.
Proof. apply String.string_of_list_ascii_of_string. Qed.

Lemma chars_text_of (l : list ascii) : chars (text_of l) = l.
Proof. apply String.list_ascii_of_string_of_list_ascii. Qed.

Lemma chars_inj (a b : string) : chars a = chars b → a = b.
Proof. intros H. by rewrite <- (text_of_chars a), H, text_of_chars. Qed.

Definition sep_char : ascii → bool := cls_has sep_cls.
Definition num_char : ascii → bool := cls_has num_cls.
Definition digit_char : ascii → bool := cls_has digit_cls.

Ltac by_cases_on_char c :=
  destruct c as [[] [] [] [] [] [] [] []]; vm_compute; congruence.

Lemma sep_not_num (c : ascii) : sep_char c = true → num_char c = false.
Proof. by_cases_on_char c. Qed.

Lemma num_not_sep (c : ascii) : num_char c = true → sep_char c = false.
Proof. by_cases_on_char c. Qed.

Lemma digit_char_is_digit (c : ascii) : digit_char c = is_digit c.
Proof. by_cases_on_char c. Qed.

Lemma num_char_cases (c : ascii) :
  num_char c = true → c = ","%char ∨ is_digit c = true.
Proof.
  destruct c as [[] [] [] [] [] [] [] []]; vm_compute; intros; try congruence;
    by (left + right).
Qed.

Lemma digit_not_comma (c : ascii) : is_digit c = true → c ≠ ","%char.
Proof. by_cases_on_char c. Qed.

Lemma digit_not_dot (c : ascii) : is_digit c = true → c ≠ "."%char.
Proof. by_cases_on_char c. Qed.

(** Does [s] begin with a character outside [f] (or is it empty)? *)
Definition no_head (f : ascii → bool) (s : list ascii) : bool :=
  match s with
  | [] => true
  | c :: _ => negb (f c)
  end.

(** ** The matcher, step by step *)

Lemma lit_match_app (l s : list ascii) : lit_match l (l ++ s) = Some s.
Proof.
  induction l as [|a l IH]; simpl; [by destruct s|].
  by rewrite bool_decide_eq_true_2.
Qed.

Lemma lit_match_Some (l s s' : list ascii) :
  lit_match l s = Some s' → s = l ++ s'.
Proof.
  revert s; induction l as [|a l IH]; intros s H.
  - destruct s; simpl in *; congruence.
  - destruct s as [|b s]; simpl in H; [done|].
    case_bool_decide; [|done]. subst b. simpl. f_equal. by apply IH.
Qed.

Lemma star_cls_sound f s k r :
  star_cls f s k = Some r →
  ∃ pre rest, s = pre ++ rest ∧ Forall (λ c, f c = true) pre ∧ k rest = Some r.
Proof.
  induction s as [|c s IH]; simpl; intros H.
  - exists [], []. by repeat split.
  - destruct (f c) eqn:Hc; [|by exists [], (c :: s)].
    destruct (star_cls f s k) as [r'|] eqn:Hs; [|by exists [], (c :: s)].
    destruct (IH H) as (pre & rest & -> & Hpre & Hk).
    exists (c :: pre), rest. split; [done|]. split; [by constructor|done].
Qed.

(** The continuation succeeds after the longest run: greedy takes it. *)
Lemma star_cls_max f pre rest k r :
  Forall (λ c, f c = true) pre → no_head f rest = true →
  k rest = Some r →
  star_cls f (pre ++ rest) k = Some r.
Proof.
  intros Hpre Hrest Hk. induction Hpre as [|c pre Hc _ IH]; simpl.
  - destruct rest as [|c rest]; simpl in *; [done|].
    by destruct (f c).
  - by rewrite Hc, IH.
Qed.

(** The continuation refuses every text that begins inside the class: the
    only cut it can accept is the one after the longest run. *)
Lemma star_cls_stop f pre rest k :
  (∀ c s, f c = true → k (c :: s) = None) →
  Forall (λ c, f c = true) pre → no_head f rest = true →
  star_cls f (pre ++ rest) k = k rest.
Proof.
  intros Hk Hpre Hrest. induction Hpre as [|c pre Hc _ IH]; simpl.
  - destruct rest as [|c rest]; simpl in *; [done|].
    by destruct (f c).
  - rewrite Hc, IH. destruct (k rest) eqn:E; [done|]. by apply Hk.
Qed.

(** ** What a successful match says about the subject

    [derives r s cap s' cap']: the pattern [r] can read [s] down to [s'],
    taking the capture from [cap] to [cap'].  It says nothing of priorities;
    the matcher only ever returns such a reading. *)

Inductive derives : regex → list ascii → option (list ascii) →
                    list ascii → option (list ascii) → Prop :=
  | DLit l s cap : derives (RLit l) (chars l ++ s) cap s cap
  | DEsc c s cap : derives (REsc c) (c :: s) cap s cap
  | DSeq r1 r2 s cap s1 cap1 s2 cap2 :
      derives r1 s cap s1 cap1 → derives r2 s1 cap1 s2 cap2 →
      derives (RSeq r1 r2) s cap s2 cap2
  | DAltL r1 r2 s cap s1 cap1 :
      derives r1 s cap s1 cap1 → derives (RAlt r1 r2) s cap s1 cap1
  | DAltR r1 r2 s cap s1 cap1 :
      derives r2 s cap s1 cap1 → derives (RAlt r1 r2) s cap s1 cap1
  | DNGroup r s cap s1 cap1 :
      derives r s cap s1 cap1 → derives (RNGroup r) s cap s1 cap1
  | DGroup r s cap s1 cap1 :
      derives r s cap s1 cap1 →
      derives (RGroup r) s cap s1 (Some (take (length s - length s1) s))
  | DStar cl pre s cap :
      Forall (λ c, cls_has cl c = true) pre →
      derives (RStar cl) (pre ++ s) cap s cap
  | DPlus cl c pre s cap :
      cls_has cl c = true → Forall (λ c, cls_has cl c = true) pre →
      derives (RPlus cl) (c :: pre ++ s) cap s cap
  | DOptY r s cap s1 cap1 :
      derives r s cap s1 cap1 → derives (ROpt r) s cap s1 cap1
  | DOptN r s cap : derives (ROpt r) s cap s cap.

Lemma rmatch_sound r : ∀ s cap k res,
  rmatch r s cap k = Some res →
  ∃ s1 cap1, derives r s cap s1 cap1 ∧ k s1 cap1 = Some res.
Proof.
  induction r as [l|c|r1 IH1 r2 IH2|r1 IH1 r2 IH2|r IH|r IH|cl|cl|r IH];
    intros s cap k res H; simpl in H.
  - destruct (lit_match (chars l) s) as [s'|] eqn:E; [|done].
    apply lit_match_Some in E as ->. eauto using derives.
  - destruct s as [|b s]; [done|]. case_bool_decide; [|done]. subst b.
    eauto using derives.
  - apply IH1 in H as (s1 & cap1 & D1 & H).
    apply IH2 in H as (s2 & cap2 & D2 & H). eauto using derives.
  - destruct (rmatch r1 s cap k) as [x|] eqn:E.
    + apply IH1 in E as (s1 & cap1 & D & E). exists s1, cap1.
      split; [by apply DAltL|congruence].
    + apply IH2 in H as (s1 & cap1 & D & H). eauto using derives.
  - apply IH in H as (s1 & cap1 & D & H). eauto using derives.
  - apply IH in H as (s1 & cap1 & D & H). eauto using derives.
  - apply star_cls_sound in H as (pre & rest & -> & Hpre & H).
    eauto using derives.
  - destruct s as [|c s]; [done|]. destruct (cls_has cl c) eqn:Hc; [|done].
    apply star_cls_sound in H as (pre & rest & -> & Hpre & H).
    eauto using derives.
  - destruct (rmatch r s cap k) as [x|] eqn:E.
    + apply IH in E as (s1 & cap1 & D & E). exists s1, cap1.
      split; [by apply DOptY|congruence].
    + eauto using derives.
Qed.

Lemma take_prefix (a b : list ascii) :
  take (length (a ++ b) - length b) (a ++ b) = a.
Proof.
  rewrite length_app, Nat.add_sub. by rewrite take_app_length.
Qed.

(** ** Tokens: what the capture group can hold *)

(** The optional fraction of a token: a point and its digits. *)
Definition fraction (fd : option (list ascii)) : list ascii :=
  match fd with
  | Some d => "."%char :: d
  | None => []
  end.

Definition fraction_ok (fd : option (list ascii)) : Prop :=
  match fd with
  | Some d => d ≠ [] ∧ Forall (λ c, digit_char c = true) d
  | None => True
  end.

(** [tok] is [ip] (digits and commas, at least one) and a fraction. *)
Definition token (tok : list ascii) : Prop :=
  ∃ ip fd, tok = ip ++ fraction fd ∧ ip ≠ [] ∧
           Forall (λ c, num_char c = true) ip ∧ fraction_ok fd.

(** The text [s] starts with a label of [syns], separators, and the token
    [tok]; [rest] follows. *)
Definition labelled_token (syns : list string) (s tok rest : list ascii) : Prop :=
  ∃ syn sep, syn ∈ syns ∧ Forall (λ c, sep_char c = true) sep ∧ token tok ∧
             s = chars syn ++ sep ++ tok ++ rest.

Lemma alternatives_sound syns : ∀ syn s cap s1 cap1,
  derives (alternatives syn syns) s cap s1 cap1 →
  ∃ x, x ∈ syn :: syns ∧ s = chars x ++ s1 ∧ cap1 = cap.
Proof.
  induction syns as [|syn' syns IH]; intros syn s cap s1 cap1 D; simpl in D.
  - inversion D; subst. exists syn. split; [apply list_elem_of_here|done].
  - inversion D as [| | |? ? ? ? ? ? D1|? ? ? ? ? ? D2| | | | | |]; subst.
    + inversion D1; subst. exists syn. split; [apply list_elem_of_here|done].
    + apply IH in D2 as (x & Hx & -> & ->). exists x.
      split; [by apply list_elem_of_further|done].
Qed.

Lemma number_tail_sound s cap s1 cap1 :
  derives number_tail s cap s1 cap1 →
  ∃ sep tok, Forall (λ c, sep_char c = true) sep ∧ token tok ∧
             s = sep ++ tok ++ s1 ∧ cap1 = Some tok.
Proof.
  unfold number_tail. intros D.
  inversion D as [| |? ? ? ? ? ? ? ? Dsep Dgrp| | | | | | | |]; subst; clear D.
  inversion Dsep; subst; clear Dsep.
  inversion Dgrp as [| | | | | |? ? ? ? ? Dtok| | | |]; subst; clear Dgrp.
  inversion Dtok as [| |? ? ? ? ? ? ? ? Dint Dopt| | | | | | | |]; subst; clear Dtok.
  inversion Dint; subst; clear Dint.
  inversion Dopt as [| | | | | | | | |? ? ? ? ? Dy|]; subst; clear Dopt.
  - inversion Dy as [| | | | |? ? ? ? ? Dy'| | | | |]; subst; clear Dy.
    inversion Dy' as [| |? ? ? ? ? ? ? ? Ddot Dfd| | | | | | | |]; subst; clear Dy'.
    inversion Ddot; subst; clear Ddot. inversion Dfd; subst; clear Dfd.
    eexists pre, ((c :: pre0) ++ fraction (Some (c0 :: pre1))).
    split; [done|]. split; [|split].
    + exists (c :: pre0), (Some (c0 :: pre1)). repeat split; try done.
      by constructor. by constructor.
    + simpl. by rewrite <- !app_assoc.
    + f_equal.
      change (c :: pre0 ++ "."%char :: c0 :: pre1 ++ s1)
        with ((c :: pre0) ++ ("."%char :: c0 :: pre1 ++ s1)).
      replace ((c :: pre0) ++ "."%char :: c0 :: pre1 ++ s1)
        with (((c :: pre0) ++ fraction (Some (c0 :: pre1))) ++ s1)
        by (simpl; by rewrite <- !app_assoc).
      apply take_prefix.
  - exists pre, ((c :: pre0) ++ fraction None).
    split; [done|]. split; [|split].
    + exists (c :: pre0), None. repeat split; try done. by constructor.
    + simpl. by rewrite app_nil_r.
    + f_equal. simpl fraction. rewrite app_nil_r.
      apply (take_prefix (c :: pre0) s1).
Qed.

Lemma metric_match_sound syns s cap rest :
  syns ≠ [] →
  match_here (metric_re syns) s = Some (cap, rest) →
  ∃ tok, cap = Some tok ∧ labelled_token syns s tok rest.
Proof.
  intros Hne H. unfold match_here in H.
  apply rmatch_sound in H as (s1 & cap1 & D & H).
  injection H as -> ->.
  unfold metric_re in D.
  inversion D as [| |? ? ? ? ? ? ? ? Dlab Dtail| | | | | | | |]; subst; clear D.
  destruct syns as [|syn syns]; [done|]. simpl in Dlab.
  inversion Dlab as [| | | | |? ? ? ? ? Dalt| | | | |]; subst; clear Dlab.
  apply alternatives_sound in Dalt as (x & Hx & -> & ->).
  apply number_tail_sound in Dtail as (sep & tok & Hsep & Htok & -> & ->).
  exists tok. split; [done|]. by exists x, sep.
Qed.

(** A match of a metric pattern reads at least one character. *)
Lemma metric_match_consumes syns s cap rest :
  syns ≠ [] →
  match_here (metric_re syns) s = Some (cap, rest) → length rest < length s.
Proof.
  intros Hne H. apply metric_match_sound in H as (tok & _ & L); [|done].
  destruct L as (syn & sep & _ & _ & (ip & fd & -> & Hip & _) & ->).
  rewrite !length_app. destruct ip; [done|]. simpl. lia.
Qed.

(** ** When the matcher must succeed, and with what *)

Definition first_char (s : string) : option ascii := head (chars s).

(** The labels of one metric begin with different characters, so at most
    one of them can start a given text. *)
Definition heads_distinct (syns : list string) : Prop :=
  NoDup (map first_char syns) ∧ None ∉ map first_char syns.

Lemma lit_match_other (x y : string) (rest : list ascii) :
  first_char y ≠ first_char x → first_char y ≠ None → first_char x ≠ None →
  lit_match (chars y) (chars x ++ rest) = None.
Proof.
  unfold first_char. destruct (chars y) as [|b l]; [done|].
  destruct (chars x) as [|a l']; [done|]. simpl. intros Hxy _ _.
  case_bool_decide; [congruence|done].
Qed.

Lemma alternatives_other syns : ∀ syn x rest cap k,
  (∀ y, y ∈ syn :: syns → first_char y ≠ first_char x ∧ first_char y ≠ None) →
  first_char x ≠ None →
  rmatch (alternatives syn syns) (chars x ++ rest) cap k = None.
Proof.
  induction syns as [|syn' syns IH]; intros syn x rest cap k Hy Hx; simpl.
  - destruct (Hy syn) as [H1 H2]; [apply list_elem_of_here|].
    by rewrite lit_match_other.
  - destruct (Hy syn) as [H1 H2]; [apply list_elem_of_here|].
    rewrite lit_match_other by done. apply IH; [|done].
    intros y Hin. apply Hy. by apply list_elem_of_further.
Qed.

Lemma heads_distinct_cons syn syns :
  heads_distinct (syn :: syns) →
  first_char syn ≠ None ∧ heads_distinct syns ∧
  ∀ y, y ∈ syns → first_char y ≠ first_char syn ∧ first_char y ≠ None.
Proof.
  intros [Hnd Hnone]. simpl in *. apply NoDup_cons in Hnd as [Hnotin Hnd].
  apply not_elem_of_cons in Hnone as [Hsyn Hnone].
  split; [done|]. split; [done|]. intros y Hy.
  assert (first_char y ∈ map first_char syns) as Hin
    by (apply list_elem_of_fmap; eauto).
  split; intros E; [|]; rewrite E in Hin; done.
Qed.

Lemma alternatives_complete syns : ∀ syn x rest cap k,
  heads_distinct (syn :: syns) → x ∈ syn :: syns →
  rmatch (alternatives syn syns) (chars x ++ rest) cap k = k rest cap.
Proof.
  induction syns as [|syn' syns IH]; intros syn x rest cap k Hd Hx; simpl.
  - apply list_elem_of_singleton in Hx as ->. by rewrite lit_match_app.
  - apply heads_distinct_cons in Hd as (Hsyn & Hd & Hothers).
    apply elem_of_cons in Hx as [->|Hx].
    + rewrite lit_match_app. destruct (k rest cap); [done|].
      by apply alternatives_other.
    + destruct (Hothers x Hx) as [H1 H2].
      rewrite lit_match_other by done. by apply IH.
Qed.

(** Where a token ends: after a fraction no digit follows; without one,
    neither a digit nor a comma follows, nor a point before a digit. *)
Definition ends_token (fd : option (list ascii)) (post : list ascii) : bool :=
  match fd with
  | Some _ => no_head digit_char post
  | None =>
      no_head num_char post &&
      negb (match post with
            | p :: d :: _ => bool_decide (p = "."%char) && digit_char d
            | _ => false
            end)
  end.

Lemma number_tail_complete sep ip fd post cap k r :
  Forall (λ c, sep_char c = true) sep →
  ip ≠ [] → Forall (λ c, num_char c = true) ip → fraction_ok fd →
  ends_token fd post = true →
  k post (Some (ip ++ fraction fd)) = Some r →
  rmatch number_tail (sep ++ (ip ++ fraction fd) ++ post) cap k = Some r.
Proof.
  intros Hsep Hne Hip Hfd Hend Hk.
  destruct ip as [|c ip]; [done|]. apply Forall_cons in Hip as [Hc Hip].
  assert (take (length (c :: ip ++ fraction fd ++ post) - length post)
               (c :: ip ++ fraction fd ++ post) = (c :: ip) ++ fraction fd) as Htake.
  { replace (c :: ip ++ fraction fd ++ post)
      with (((c :: ip) ++ fraction fd) ++ post)
      by (simpl; by rewrite <- app_assoc).
    apply take_prefix. }
  unfold number_tail. cbn [rmatch].
  rewrite (star_cls_stop (cls_has sep_cls) sep); [| |done|].
  2:{ intros c' s' Hc'. cbv beta iota.
      change (cls_has num_cls c') with (num_char c').
      by rewrite (sep_not_num c'). }
  2:{ change (negb (sep_char c) = true). by rewrite (num_not_sep c). }
  rewrite <- app_assoc. change ((c :: ip) ++ fraction fd ++ post)
    with (c :: ip ++ fraction fd ++ post).
  cbv beta iota. change (cls_has num_cls c) with (num_char c). rewrite Hc.
  apply star_cls_max; [done|..].
  - destruct fd as [d|]; [done|].
    simpl in Hend. by apply andb_prop in Hend as [H _].
  - destruct fd as [d|]; simpl fraction in *.
    + destruct Hfd as [Hd Hds]. destruct d as [|d0 d]; [done|].
      apply Forall_cons in Hds as [Hd0 Hds]. simpl app in *. cbv beta iota.
      rewrite bool_decide_eq_true_2 by done. cbv beta iota.
      change (cls_has digit_cls d0) with (digit_char d0). rewrite Hd0.
      erewrite star_cls_max; [done|done|exact Hend|].
      rewrite Htake. exact Hk.
    + simpl app in *. rewrite Htake, Hk.
      simpl in Hend. apply andb_prop in Hend as [_ Hend].
      apply negb_true_iff in Hend.
      destruct post as [|b [|d post]]; try done.
      * by case_bool_decide.
      * destruct (decide ("."%char = b)) as [<-|Hb].
        -- rewrite bool_decide_eq_true_2 in Hend by done.
           rewrite bool_decide_eq_true_2 by done. simpl in Hend.
           change (cls_has digit_cls d) with (digit_char d). by rewrite Hend.
        -- by rewrite bool_decide_eq_false_2.
Qed.

Lemma metric_match_complete syns syn sep ip fd post :
  heads_distinct syns → syn ∈ syns →
  Forall (λ c, sep_char c = true) sep →
  ip ≠ [] → Forall (λ c, num_char c = true) ip → fraction_ok fd →
  ends_token fd post = true →
  match_here (metric_re syns) (chars syn ++ sep ++ (ip ++ fraction fd) ++ post)
  = Some (Some (ip ++ fraction fd), post).
Proof.
  intros Hd Hsyn Hsep Hne Hip Hfd Hend.
  destruct syns as [|syn0 syns]; [by apply elem_of_nil in Hsyn|].
  unfold match_here, metric_re. cbn [rmatch label_re].
  rewrite alternatives_complete by done.
  by apply number_tail_complete.
Qed.

(** ** Occurrences of a label with a figure *)

(** [s] starts with a label of [syns], then separators, then a character a
    token can start with. *)
Definition labelled_number (syns : list string) (s : list ascii) : Prop :=
  ∃ syn sep c rest, syn ∈ syns ∧ Forall (λ c, sep_char c = true) sep ∧
                    num_char c = true ∧ s = chars syn ++ sep ++ c :: rest.

Fixpoint skip_seps (s : list ascii) : list ascii :=
  match s with
  | c :: s' => if sep_char c then skip_seps s' else s
  | [] => []
  end.

Definition labelled_number_b (syns : list string) (s : list ascii) : bool :=
  existsb (λ syn, match lit_match (chars syn) s with
                  | Some s1 => negb (no_head num_char (skip_seps s1))
                  | None => false
                  end) syns.

Lemma skip_seps_split s :
  ∃ sep, Forall (λ c, sep_char c = true) sep ∧ s = sep ++ skip_seps s.
Proof.
  induction s as [|c s (sep & Hsep & IH)]; [by exists []|]. simpl.
  destruct (sep_char c) eqn:Hc; [|by exists []].
  exists (c :: sep). split; [by constructor|]. simpl. by rewrite <- IH.
Qed.

Lemma skip_seps_app sep c rest :
  Forall (λ c, sep_char c = true) sep → sep_char c = false →
  skip_seps (sep ++ c :: rest) = c :: rest.
Proof.
  intros Hsep Hc. induction Hsep as [|x sep Hx _ IH]; simpl.
  - by rewrite Hc.
  - by rewrite Hx.
Qed.

Lemma labelled_number_b_spec syns s :
  labelled_number_b syns s = true ↔ labelled_number syns s.
Proof.
  unfold labelled_number_b. rewrite existsb_exists. split.
  - intros (syn & Hin & H). apply list_elem_of_In in Hin.
    destruct (lit_match (chars syn) s) as [s1|] eqn:E; [|done].
    apply lit_match_Some in E as ->.
    destruct (skip_seps_split s1) as (sep & Hsep & Hs1).
    destruct (skip_seps s1) as [|c rest]; [done|]. simpl in H.
    apply negb_true_iff, negb_false_iff in H.
    exists syn, sep, c, rest. by rewrite Hs1.
  - intros (syn & sep & c & rest & Hin & Hsep & Hc & ->).
    exists syn. split; [by apply list_elem_of_In|].
    rewrite lit_match_app, skip_seps_app by auto using num_not_sep.
    simpl. by rewrite Hc.
Qed.

Global Instance labelled_number_dec syns s : Decision (labelled_number syns s).
Proof.
  refine (cast_if (decide (labelled_number_b syns s = true)));
    by rewrite <- labelled_number_b_spec.
Defined.

Lemma labelled_token_number syns s tok rest :
  labelled_token syns s tok rest → labelled_number syns s.
Proof.
  intros (syn & sep & Hin & Hsep & (ip & fd & -> & Hne & Hip & _) & ->).
  destruct ip as [|c ip]; [done|]. apply Forall_cons in Hip as [Hc _].
  exists syn, sep, c, (ip ++ fraction fd ++ rest).
  repeat split; try done. simpl. by rewrite <- app_assoc.
Qed.

Lemma no_label_no_match syns s :
  syns ≠ [] → ¬ labelled_number syns s → match_here (metric_re syns) s = None.
Proof.
  intros Hne Hno. destruct (match_here (metric_re syns) s) as [[cap rest]|] eqn:E;
    [|done].
  apply metric_match_sound in E as (tok & _ & L); [|done].
  by apply labelled_token_number in L.
Qed.

(** ** [findall]: the first element and the empty list *)

Lemma findall_from_first r pre s cap rest :
  (∀ p q, pre = p ++ q → q ≠ [] → match_here r (q ++ s) = None) →
  s ≠ [] → match_here r s = Some (cap, rest) →
  ∃ more, findall_from r (pre ++ s) 0 = default [] cap :: more.
Proof.
  intros Hpre Hs Hm. induction pre as [|c pre IH]; cbn [findall_from app].
  - destruct s as [|c s]; [done|]. cbn [findall_from]. rewrite Hm. eauto.
  - pose proof (Hpre [] (c :: pre) eq_refl ltac:(done)) as H0.
    cbn [app] in H0. rewrite H0. apply IH.
    intros p q -> Hq. by apply (Hpre (c :: p) q).
Qed.

Lemma findall_from_none r s :
  (∀ p q, s = p ++ q → match_here r q = None) → findall_from r s 0 = [].
Proof.
  intros H. induction s as [|c s IH]; cbn [findall_from].
  - by rewrite (H [] []).
  - rewrite (H [] (c :: s)) by done. apply IH.
    intros p q ->. by apply (H (c :: p) q).
Qed.

Lemma findall_from_elem r x : ∀ s skip,
  x ∈ findall_from r s skip →
  ∃ p q cap rest, s = p ++ q ∧ match_here r q = Some (cap, rest) ∧
                  x = default [] cap.
Proof.
  induction s as [|c s IH]; intros skip Hx; cbn [findall_from] in Hx.
  - destruct skip; [|by apply elem_of_nil in Hx].
    destruct (match_here r []) as [[cap rest]|] eqn:E; [|by apply elem_of_nil in Hx].
    apply list_elem_of_singleton in Hx as ->. by exists [], [], cap, rest.
  - assert (∀ n, x ∈ findall_from r s n →
        ∃ p q cap rest, c :: s = p ++ q ∧ match_here r q = Some (cap, rest) ∧
                        x = default [] cap) as Hrec.
    { intros n Hn. apply IH in Hn as (p & q & cap & rest & -> & Hq & ->).
      by exists (c :: p), q, cap, rest. }
    destruct skip; [|by eapply Hrec].
    destruct (match_here r (c :: s)) as [[cap rest]|] eqn:E; [|by eapply Hrec].
    apply elem_of_cons in Hx as [->|Hx]; [|by eapply Hrec].
    by exists [], (c :: s), cap, rest.
Qed.

(** ** The number normaliser on cleaned tokens *)

Lemma split_at_absent c s : c ∉ s → split_at c s = (s, None).
Proof.
  induction s as [|x s IH]; [done|]. intros Hc. simpl.
  apply not_elem_of_cons in Hc as [Hx Hc].
  rewrite bool_decide_eq_false_2 by done. by rewrite IH.
Qed.

Lemma split_at_first c a b : c ∉ a → split_at c (a ++ c :: b) = (a, Some b).
Proof.
  induction a as [|x a IH]; intros Hc; simpl.
  - by rewrite bool_decide_eq_true_2.
  - apply not_elem_of_cons in Hc as [Hx Hc].
    rewrite bool_decide_eq_false_2 by done. by rewrite IH.
Qed.

Lemma split_at_fraction ds fd :
  Forall (λ c, is_digit c = true) ds →
  split_at "." (ds ++ fraction fd) = (ds, fd).
Proof.
  intros Hds.
  assert ("."%char ∉ ds) as Hdot.
  { intros Hin. rewrite Forall_forall in Hds.
    by apply (digit_not_dot _ (Hds _ Hin)). }
  destruct fd as [d|]; simpl.
  - by apply split_at_first.
  - rewrite app_nil_r. by apply split_at_absent.
Qed.

Definition no_commas (l : list ascii) : list ascii :=
  filter (λ x, x ≠ ","%char) l.

Lemma no_commas_digits ip :
  Forall (λ c, num_char c = true) ip →
  Forall (λ c, is_digit c = true) (no_commas ip).
Proof.
  intros Hip. apply Forall_forall. intros c Hc.
  apply list_elem_of_filter in Hc as [Hne Hin].
  rewrite Forall_forall in Hip.
  by destruct (num_char_cases c (Hip c Hin)).
Qed.

Lemma no_commas_fraction fd : fraction_ok fd → no_commas (fraction fd) = fraction fd.
Proof.
  destruct fd as [d|]; [|done]. intros [_ Hd]. unfold no_commas. simpl.
  rewrite filter_cons_True by done. f_equal.
  induction Hd as [|c d Hc _ IH]; [done|].
  rewrite filter_cons_True; [by f_equal|].
  apply digit_not_comma. by rewrite <- digit_char_is_digit.
Qed.

Lemma clean_token ip fd :
  fraction_ok fd →
  remove_char "," (text_of (ip ++ fraction fd))
  = text_of (no_commas ip ++ fraction fd).
Proof.
  intros Hfd. unfold remove_char. rewrite chars_text_of. f_equal.
  fold (no_commas (ip ++ fraction fd)). unfold no_commas at 1.
  rewrite filter_app. fold (no_commas ip) (no_commas (fraction fd)).
  by rewrite no_commas_fraction.
Qed.

(** The decimal a cleaned token denotes. *)
Definition decimal (ds : list ascii) (fd : option (list ascii)) : Q :=
  let d := default [] fd in
  Qred (Z.of_N (digits_val (ds ++ d)) # Z.to_pos (10 ^ Z.of_nat (length d))).

Lemma py_float_digits ds fd :
  Forall (λ c, is_digit c = true) ds → fraction_ok fd →
  py_float (text_of (ds ++ fraction fd))
  = if Nat.eqb (length ds + length (default [] fd)) 0 then None
    else Some (decimal ds fd).
Proof.
  intros Hds Hfd. unfold py_float. rewrite chars_text_of.
  rewrite split_at_fraction by done.
  assert (forallb is_digit ds = true) as ->.
  { apply forallb_forall. intros c Hc. rewrite Forall_forall in Hds.
    apply Hds. by apply list_elem_of_In. }
  assert (forallb is_digit (default [] fd) = true) as ->.
  { destruct fd as [d|]; [|done]. destruct Hfd as [_ Hd]. simpl.
    apply forallb_forall. intros c Hc. rewrite Forall_forall in Hd.
    rewrite <- digit_char_is_digit. apply Hd. by apply list_elem_of_In. }
  simpl. by destruct (Nat.eqb _ 0).
Qed.

(** Parsing fails on a cleaned token only when nothing is left of it. *)
Lemma py_float_token_None ip fd :
  Forall (λ c, num_char c = true) ip → fraction_ok fd →
  py_float (remove_char "," (text_of (ip ++ fraction fd))) = None →
  remove_char "," (text_of (ip ++ fraction fd)) = "".
Proof.
  intros Hip Hfd. rewrite clean_token by done.
  rewrite py_float_digits by auto using no_commas_digits.
  destruct (Nat.eqb _ 0) eqn:E; [|done]. intros _.
  apply Nat.eqb_eq in E.
  destruct fd as [d|]; simpl in *.
  - destruct Hfd as [Hd _]. destruct d; [done|]. simpl in E. lia.
  - destruct (no_commas ip); [done|]. simpl in E. lia.
Qed.

(** ** One metric at a time *)

(** What the loop stores for a pattern: nothing without a match, else the
    first captured token, cleaned and parsed. *)
Definition metric_value (low : string) (r : regex) : option py_value :=
  match findall r low with
  | first :: _ =>
      let value := remove_char "," first in
      Some (match py_float value with
            | Some x => PyFloat x
            | None => PyStr value
            end)
  | [] => None
  end.

Arguments extract_one : simpl never.

Lemma extract_one_same low (acc : gmap string py_value) m r :
  extract_one low acc (m, r) !! m
  = match metric_value low r with Some v => Some v | None => acc !! m end.
Proof.
  unfold extract_one, metric_value. destruct (findall r low) as [|first ?]; [done|].
  simpl. destruct (py_float _); by rewrite lookup_insert_eq.
Qed.

Lemma extract_one_other low (acc : gmap string py_value) m r m' :
  m ≠ m' → extract_one low acc (m, r) !! m' = acc !! m'.
Proof.
  intros Hne. unfold extract_one. destruct (findall r low) as [|first ?]; [done|].
  simpl. destruct (py_float _); by rewrite lookup_insert_ne.
Qed.

Lemma fold_extract_other low ps : ∀ (acc : gmap string py_value) m,
  m ∉ ps.*1 → fold_left (extract_one low) ps acc !! m = acc !! m.
Proof.
  induction ps as [|[m' r] ps IH]; intros acc m Hm; [done|]. simpl in *.
  apply not_elem_of_cons in Hm as [Hne Hm].
  rewrite IH by done. by apply extract_one_other.
Qed.

Lemma fold_extract_lookup low ps : ∀ (acc : gmap string py_value) m r,
  NoDup ps.*1 → (m, r) ∈ ps →
  fold_left (extract_one low) ps acc !! m
  = match metric_value low r with Some v => Some v | None => acc !! m end.
Proof.
  induction ps as [|[m' r'] ps IH]; intros acc m r Hnd Hin.
  - by apply elem_of_nil in Hin.
  - simpl in *. apply NoDup_cons in Hnd as [Hm' Hnd].
    apply elem_of_cons in Hin as [[= <- <-]|Hin].
    + rewrite fold_extract_other by done. apply extract_one_same.
    + rewrite (IH _ _ r) by done.
      assert (m' ≠ m) as Hne.
      { intros ->. apply Hm'. apply list_elem_of_fmap. by exists (m, r). }
      by rewrite extract_one_other.
Qed.

Global Instance heads_distinct_dec syns : Decision (heads_distinct syns).
Proof. unfold heads_distinct. apply _. Defined.

Lemma synonyms_distinct m syns :
  (m, syns) ∈ synonyms → heads_distinct syns ∧ syns ≠ [].
Proof.
  assert (Forall (λ e, heads_distinct e.2 ∧ e.2 ≠ []) synonyms) as H
    by (apply (bool_decide_unpack _); by vm_compute).
  rewrite Forall_forall in H. intros Hin. apply (H _ Hin).
Qed.

Lemma extract_lookup text m syns :
  (m, syns) ∈ synonyms →
  extract_financial_metrics text !! m = metric_value (lower text) (metric_re syns).
Proof.
  intros Hin. unfold extract_financial_metrics.
  rewrite (fold_extract_lookup _ _ _ _ (metric_re syns)).
  - rewrite lookup_empty. by destruct (metric_value _ _).
  - apply (bool_decide_unpack _). by vm_compute.
  - unfold patterns. apply list_elem_of_fmap. by exists (m, syns).
Qed.

(** ** Statements over texts *)

Lemma forallb_Forall (f : ascii → bool) l :
  forallb f l = true → Forall (λ c, f c = true) l.
Proof.
  induction l as [|c l IH]; simpl; [by constructor|].
  intros [Hc Hl]%andb_prop. constructor; auto.
Qed.

Lemma split_at_join c s :
  s = (split_at c s).1 ++ match (split_at c s).2 with
                          | Some t => c :: t
                          | None => []
                          end.
Proof.
  induction s as [|x s IH]; [done|]. simpl.
  case_bool_decide as Hx; [by subst|].
  destruct (split_at c s) as [a b]. simpl in *. by f_equal.
Qed.

(** [sep] is made of white space, colons and dollar signs only. *)
Definition separators (sep : string) : bool := forallb sep_char (chars sep).

(** A number written with digits, commas after the first digit (thousands
    separators among them) and optionally a point followed by digits. *)
Definition well_formed_number (num : string) : bool :=
  let '(ip, fd) := split_at "." (chars num) in
  negb (no_head is_digit ip) && forallb num_char ip &&
  match fd with
  | Some d => negb (Nat.eqb (length d) 0) && forallb digit_char d
  | None => true
  end.

(** The number [num] is not continued by [post]. *)
Definition number_ends (num post : string) : bool :=
  ends_token (split_at "." (chars num)).2 (chars post).

(** No label of [syns] with a figure starts inside [pre], when [rest]
    follows [pre]. *)
Definition no_occurrence_before (syns : list string) (pre rest : string) : Prop :=
  ∀ p q, chars pre = p ++ q → q ≠ [] → ¬ labelled_number syns (q ++ chars rest).

(** A label of [syns] with a figure occurs somewhere in [s]. *)
Definition occurs (syns : list string) (s : string) : Prop :=
  ∃ p q, chars s = p ++ q ∧ labelled_number syns q.

Fixpoint none_before_b (syns : list string) (pre rest : list ascii) : bool :=
  match pre with
  | [] => true
  | _ :: pre' =>
      negb (labelled_number_b syns (pre ++ rest)) && none_before_b syns pre' rest
  end.

Lemma none_before_b_spec syns pre rest :
  none_before_b syns (chars pre) (chars rest) = true ↔
  no_occurrence_before syns pre rest.
Proof.
  unfold no_occurrence_before. generalize (chars pre) (chars rest).
  clear pre rest. intros pre rest. induction pre as [|c pre IH]; simpl.
  - split; [|done]. intros _ p q Hpq Hq.
    symmetry in Hpq. apply app_eq_nil in Hpq as [_ ?]. done.
  - rewrite andb_true_iff, negb_true_iff, IH. split.
    + intros [Hhere Hlater] p q Hpq Hq Hlab.
      destruct p as [|x p]; simpl in Hpq.
      * subst q. apply labelled_number_b_spec in Hlab. simpl in Hlab. congruence.
      * injection Hpq as -> ->. by apply (Hlater p q).
    + intros H. split.
      * destruct (labelled_number_b syns (c :: pre ++ rest)) eqn:E; [|done].
        apply labelled_number_b_spec in E. by destruct (H [] (c :: pre)).
      * intros p q -> Hq. by apply (H (c :: p) q).
Qed.

Global Instance no_occurrence_before_dec syns pre rest :
  Decision (no_occurrence_before syns pre rest).
Proof.
  refine (cast_if (decide (none_before_b syns (chars pre) (chars rest) = true)));
    by rewrite <- none_before_b_spec.
Defined.

Fixpoint occurs_b (syns : list string) (s : list ascii) : bool :=
  labelled_number_b syns s ||
  match s with
  | [] => false
  | _ :: s' => occurs_b syns s'
  end.

Lemma occurs_b_spec syns s : occurs_b syns (chars s) = true ↔ occurs syns s.
Proof.
  unfold occurs. generalize (chars s). clear s. intros s.
  induction s as [|c s IH]; simpl; rewrite orb_true_iff.
  - rewrite labelled_number_b_spec. split.
    + intros [H|?]; [|done]. by exists [], [].
    + intros (p & q & Hpq & H). left.
      symmetry in Hpq. apply app_eq_nil in Hpq as [_ ->]. done.
  - rewrite labelled_number_b_spec, IH. split.
    + intros [H|(p & q & -> & H)]; [by exists [], (c :: s)|].
      by exists (c :: p), q.
    + intros (p & q & Hpq & H). destruct p as [|x p]; simpl in Hpq.
      * subst q. by left.
      * injection Hpq as -> ->. right. by exists p, q.
Qed.

Global Instance occurs_dec syns s : Decision (occurs syns s).
Proof.
  refine (cast_if (decide (occurs_b syns (chars s) = true)));
    by rewrite <- occurs_b_spec.
Defined.

Lemma well_formed_number_token num :
  well_formed_number num = true →
  ∃ c ip fd, chars num = (c :: ip) ++ fraction fd ∧
             (split_at "." (chars num)).2 = fd ∧ is_digit c = true ∧
             Forall (λ c, num_char c = true) (c :: ip) ∧ fraction_ok fd.
Proof.
  unfold well_formed_number. pose proof (split_at_join "." (chars num)) as Hj.
  destruct (split_at "." (chars num)) as [ip fd]. simpl in Hj.
  intros [[Hhd Hip]%andb_prop Hfd]%andb_prop.
  destruct ip as [|c ip]; [done|]. simpl in Hhd.
  apply negb_true_iff, negb_false_iff in Hhd.
  exists c, ip, fd. split; [by destruct fd|]. split; [done|]. split; [done|].
  split; [by apply forallb_Forall|].
  destruct fd as [d|]; [|done]. apply andb_prop in Hfd as [Hd Hds]. split.
  - by destruct d.
  - by apply forallb_Forall.
Qed.

(** The leftmost occurrence of a label with a well-formed number decides
    the metric: its number, commas removed, is the value. *)
Lemma first_occurrence_value text m syns pre syn sep num post :
  (m, syns) ∈ synonyms → syn ∈ syns →
  lower text = pre +:+ syn +:+ sep +:+ num +:+ post →
  no_occurrence_before syns pre (syn +:+ sep +:+ num +:+ post) →
  separators sep = true → well_formed_number num = true →
  number_ends num post = true →
  ∃ q, py_float (remove_char "," num) = Some q ∧
       extract_financial_metrics text !! m = Some (PyFloat q).
Proof.
  intros Hm Hsyn Htext Hfirst Hsep Hnum Hend.
  destruct (synonyms_distinct _ _ Hm) as [Hd Hne].
  apply well_formed_number_token in Hnum as (c & ip & fd & Hchars & Hfd & Hc & Hip & Hfrac).
  unfold number_ends in Hend. rewrite Hfd in Hend.
  apply forallb_Forall in Hsep.
  assert (match_here (metric_re syns)
            (chars syn ++ chars sep ++ chars num ++ chars post)
          = Some (Some (chars num), chars post)) as Hmatch.
  { rewrite Hchars. by apply metric_match_complete. }
  assert (∃ more, findall (metric_re syns) (lower text) = num :: more) as [more Hfind].
  { unfold findall. rewrite Htext, !chars_app.
    destruct (findall_from_first (metric_re syns) (chars pre)
                (chars syn ++ chars sep ++ chars num ++ chars post)
                (Some (chars num)) (chars post)) as [more Hmore]; [| |done|].
    - intros p q Hpq Hq. apply no_label_no_match; [done|].
      rewrite <- !chars_app. by apply (Hfirst p q).
    - rewrite Hchars. intros E. apply (f_equal length) in E.
      rewrite !length_app in E. simpl in E. lia.
    - rewrite Hmore. simpl. rewrite text_of_chars. eauto. }
  assert (py_float (remove_char "," num) = Some (decimal (no_commas (c :: ip)) fd)) as Hval.
  { rewrite <- (text_of_chars num), Hchars, clean_token by done.
    rewrite py_float_digits by auto using no_commas_digits.
    unfold no_commas. rewrite filter_cons_True by by apply digit_not_comma.
    done. }
  exists (decimal (no_commas (c :: ip)) fd). split; [done|].
  rewrite (extract_lookup _ _ syns) by done.
  unfold metric_value. rewrite Hfind. simpl. by rewrite Hval.
Qed.

(** ** Every occurrence is matched *)

Lemma span_cls (f : ascii → bool) s :
  ∃ a b, s = a ++ b ∧ Forall (λ c, f c = true) a ∧ no_head f b = true.
Proof.
  induction s as [|c s (a & b & -> & Ha & Hb)].
  - by exists [], [].
  - destruct (f c) eqn:Hc.
    + exists (c :: a), b. split; [done|]. split; [by constructor|done].
    + exists [], (c :: a ++ b). split; [done|]. split; [done|].
      simpl. by rewrite Hc.
Qed.

(** A text that starts with a character of a token starts with a whole
    token, which ends where the text goes on. *)
Lemma token_at_head c rest :
  num_char c = true →
  ∃ ip fd post, c :: rest = (ip ++ fraction fd) ++ post ∧ ip ≠ [] ∧
                Forall (λ c, num_char c = true) ip ∧ fraction_ok fd ∧
                ends_token fd post = true.
Proof.
  intros Hc. destruct (span_cls num_char rest) as (a & b & -> & Ha & Hb).
  assert (∀ post, b = post → ends_token None post = true ∨
            ∃ d0 b', post = "."%char :: d0 :: b' ∧ digit_char d0 = true) as Hcases.
  { intros post <-. destruct b as [|p [|d0 b']]; simpl in *.
    - by left.
    - left. by rewrite Hb.
    - rewrite Hb. simpl. destruct (decide (p = "."%char)) as [->|Hp].
      + rewrite bool_decide_eq_true_2 by done. simpl.
        destruct (digit_char d0) eqn:Hd0; [right; eauto|by left].
      + rewrite bool_decide_eq_false_2 by done. by left. }
  destruct (Hcases b eq_refl) as [Hend|(d0 & b' & -> & Hd0)].
  - exists (c :: a), None, b. simpl. rewrite app_nil_r.
    repeat split; try done. by constructor.
  - destruct (span_cls digit_char b') as (a' & b'' & -> & Ha' & Hb'').
    exists (c :: a), (Some (d0 :: a')), b''. simpl.
    split; [by rewrite <- !app_assoc|]. split; [done|].
    split; [by constructor|]. split; [|done].
    split; [done|by constructor].
Qed.

Lemma labelled_number_match syns s :
  heads_distinct syns → labelled_number syns s →
  is_Some (match_here (metric_re syns) s).
Proof.
  intros Hd (syn & sep & c & rest & Hin & Hsep & Hc & ->).
  destruct (token_at_head c rest Hc) as (ip & fd & post & -> & Hne & Hip & Hfd & Hend).
  erewrite metric_match_complete; done.
Qed.

Lemma findall_from_some r s :
  (∃ p q, s = p ++ q ∧ is_Some (match_here r q)) → findall_from r s 0 ≠ [].
Proof.
  induction s as [|c s IH]; intros (p & q & Hpq & [[cap rest] Hq]); cbn [findall_from].
  - symmetry in Hpq. apply app_eq_nil in Hpq as [_ ->]. by rewrite Hq.
  - destruct (match_here r (c :: s)) as [[cap' rest']|] eqn:E; [done|].
    destruct p as [|x p]; simpl in Hpq; [subst q; congruence|].
    injection Hpq as -> ->. apply IH. exists p, q. split; [done|]. by eexists.
Qed.

(** A metric is present exactly when one of its labels, followed by a
    figure, occurs in the lower-cased text. *)
Lemma present_iff_occurs text m syns :
  (m, syns) ∈ synonyms →
  is_Some (extract_financial_metrics text !! m) ↔ occurs syns (lower text).
Proof.
  intros Hm. destruct (synonyms_distinct _ _ Hm) as [Hd Hne].
  rewrite (extract_lookup _ _ syns) by done. unfold metric_value, findall. split.
  - intros Hsome.
    destruct (findall_from (metric_re syns) (chars (lower text)) 0)
      as [|x xs] eqn:E; [by destruct Hsome|].
    destruct (findall_from_elem (metric_re syns) x (chars (lower text)) 0)
      as (p & q & cap & rest & Hpq & Hq & _); [rewrite E; apply list_elem_of_here|].
    exists p, q. split; [done|].
    apply metric_match_sound in Hq as (tok & _ & L); [|done].
    by apply labelled_token_number in L.
  - intros (p & q & Hpq & Hlab).
    pose proof (findall_from_some (metric_re syns) (chars (lower text))) as Hfind.
    destruct (findall_from (metric_re syns) (chars (lower text)) 0) as [|x xs].
    + exfalso. apply Hfind; [|done]. exists p, q. split; [done|].
      by apply labelled_number_match.
    + simpl. by destruct (py_float _).
Qed.

(** * The claims *)

(** ** Metric extraction *)

(** C1, as stated, fails: on the text "Net income was $45,000 and total
    assets of 2,000,000" the extracted mapping is not
    {profit: 45000.0, assets: 2000000.0}. *)
Lemma net_income_scenario_differs :
  extract_financial_metrics "Net income was $45,000 and total assets of 2,000,000"
  ≠ {[ "profit" := PyFloat 45000; "assets" := PyFloat 2000000 ]}.
Proof.
  intros H. apply (f_equal (λ mp : gmap string py_value, mp !! "profit")) in H.
  vm_compute in H. discriminate H.
Qed.

(** C1 (amended): on the text "Net income was $45,000 and total assets of
    2,000,000" metric extraction yields the empty mapping: the words "was"
    and "of" stand between each label and its figure, so no pattern
    matches and every key, profit and assets included, is absent. *)
Theorem net_income_scenario_empty :
  extract_financial_metrics "Net income was $45,000 and total assets of 2,000,000" = ∅.
Proof. by vm_compute. Qed.

(** C4, as stated, fails: in "Revenue: ,,," the pattern of revenue captures
    the token ",,,", which does not parse, and the value stored is not that
    raw token. *)
Lemma raw_token_not_kept :
  ¬ (findall (metric_re ["revenue"; "sales"; "income"]) (lower "Revenue: ,,,") = [",,,"] →
     py_float (remove_char "," ",,,") = None →
     extract_financial_metrics "Revenue: ,,," !! "revenue" = Some (PyStr ",,,")).
Proof.
  intros H. specialize (H eq_refl eq_refl). vm_compute in H. discriminate H.
Qed.

(** C4 (amended): when a pattern matches and the first captured token does
    not parse once its commas are removed, the metric is kept, no error is
    raised, and its value is the captured token without its commas; that
    string is empty, since only a token made of commas fails to parse. *)
Theorem unparsed_token_kept_cleaned text m syns first more :
  (m, syns) ∈ synonyms →
  findall (metric_re syns) (lower text) = first :: more →
  py_float (remove_char "," first) = None →
  extract_financial_metrics text !! m = Some (PyStr (remove_char "," first))
  ∧ remove_char "," first = "".
Proof.
  intros Hm Hfind Hfloat. split.
  - rewrite (extract_lookup _ _ syns) by done.
    unfold metric_value. rewrite Hfind. simpl. by rewrite Hfloat.
  - destruct (synonyms_distinct _ _ Hm) as [_ Hne].
    unfold findall in Hfind.
    destruct (findall_from (metric_re syns) (chars (lower text)) 0)
      as [|x xs] eqn:E; [done|].
    injection Hfind as <- _.
    destruct (findall_from_elem (metric_re syns) x (chars (lower text)) 0)
      as (p & q & cap & rest & _ & Hq & ->); [rewrite E; apply list_elem_of_here|].
    apply metric_match_sound in Hq as (tok & -> & L); [|done].
    destruct L as (_ & _ & _ & _ & (ip & fd & -> & _ & Hip & Hfd) & _).
    simpl in *. by apply py_float_token_None.
Qed.

Lemma unparsed_token_kept_cleaned_witness :
  extract_financial_metrics "Revenue: ,,," !! "revenue" = Some (PyStr "")
  ∧ remove_char "," ",,," = "".
Proof.
  apply (unparsed_token_kept_cleaned "Revenue: ,,," "revenue"
           ["revenue"; "sales"; "income"] ",,," []).
  - by apply (bool_decide_unpack _); vm_compute.
  - reflexivity.
  - reflexivity.
Defined.

(** C5: when a text holds several labels of one metric with figures, the
    value extracted for the metric is the figure of the leftmost one (its
    commas removed), whatever the later figures are: for "revenue: 100 ...
    revenue: 200" it is 100, not 200 and not an aggregate. *)
Theorem first_match_wins text m syns pre syn1 sep1 num1 mid syn2 sep2 num2 post :
  (m, syns) ∈ synonyms → syn1 ∈ syns → syn2 ∈ syns →
  lower text = pre +:+ syn1 +:+ sep1 +:+ num1 +:+ mid +:+ syn2 +:+ sep2 +:+ num2 +:+ post →
  no_occurrence_before syns pre
    (syn1 +:+ sep1 +:+ num1 +:+ mid +:+ syn2 +:+ sep2 +:+ num2 +:+ post) →
  separators sep1 = true → well_formed_number num1 = true →
  number_ends num1 (mid +:+ syn2 +:+ sep2 +:+ num2 +:+ post) = true →
  separators sep2 = true → well_formed_number num2 = true →
  ∃ q1, py_float (remove_char "," num1) = Some q1 ∧
        extract_financial_metrics text !! m = Some (PyFloat q1).
Proof.
  intros Hm Hsyn1 _ Htext Hfirst Hsep1 Hnum1 Hend1 _ _.
  by apply (first_occurrence_value text m syns pre syn1 sep1 num1
              (mid +:+ syn2 +:+ sep2 +:+ num2 +:+ post)).
Qed.

Lemma first_match_wins_witness :
  extract_financial_metrics "revenue: 100 ... revenue: 200" !! "revenue"
  = Some (PyFloat 100).
Proof.
  destruct (first_match_wins "revenue: 100 ... revenue: 200" "revenue"
              ["revenue"; "sales"; "income"]
              "" "revenue" ": " "100" " ... " "revenue" ": " "200" "")
    as (q1 & Hq1 & ->);
    try (by apply (bool_decide_unpack _); vm_compute); try reflexivity.
  vm_compute in Hq1. by injection Hq1 as <-.
Defined.

(** The first match counts across the labels of one metric: here the
    figure after "sales" is the value of revenue, not the later one after
    "revenue". *)
Example earlier_label_of_same_metric_wins :
  extract_financial_metrics "Sales: 10. Total Revenue: $1,234,567.89" !! "revenue"
  = Some (PyFloat 10).
Proof. reflexivity. Qed.



(** C7: for every text and every metric of the pattern set, if no label of
    the metric followed by a figure occurs anywhere in the lower-cased text,
    the metric's key is absent from the result (not present with zero or a
    null value). *)
Theorem unmatched_metric_absent text m syns :
  (m, syns) ∈ synonyms → ¬ occurs syns (lower text) →
  extract_financial_metrics text !! m = None.
Proof.
  intros Hm Hno. destruct (synonyms_distinct _ _ Hm) as [_ Hne].
  rewrite (extract_lookup _ _ syns) by done.
  unfold metric_value, findall. rewrite findall_from_none; [done|].
  intros p q Hpq. apply no_label_no_match; [done|].
  intros Hlab. apply Hno. by exists p, q.
Qed.

Lemma unmatched_metric_absent_witness :
  extract_financial_metrics "Net income was $45,000 and total assets of 2,000,000"
    !! "profit" = None.
Proof.
  apply (unmatched_metric_absent _ "profit" ["profit"; "net income"; "earnings"]).
  - by apply (bool_decide_unpack _); vm_compute.
  - by apply (bool_decide_unpack _); vm_compute.
Defined.

(** ** Document processing *)

Lemma str_app_assoc (a b c : string) : (a +:+ b) +:+ c = a +:+ b +:+ c.
Proof. apply chars_inj. by rewrite !chars_app, app_assoc. Qed.

Lemma str_app_nil_r (a : string) : a +:+ "" = a.
Proof. apply chars_inj. by rewrite chars_app, app_nil_r. Qed.

Lemma dict_set_fresh {V : Type} k (v : V) d :
  k ∉ d.*1 → dict_set k v d = d ++ [(k, v)].
Proof.
  induction d as [|[k' v'] d IH]; intros Hk; [done|]. simpl in *.
  apply not_elem_of_cons in Hk as [Hne Hk].
  rewrite bool_decide_eq_false_2 by done. by rewrite IH.
Qed.

(** The first exception reading the pages meets, if any. *)
Fixpoint first_raise (pages : list (outcome string)) : option py_exn :=
  match pages with
  | [] => None
  | Returns _ :: pages' => first_raise pages'
  | Raises e :: _ => Some e
  end.

(** The exception a malformed or unreadable PDF makes the reader raise,
    on opening it or on one of its pages. *)
Definition pdf_failure (pdf_file : pdf_source) : option py_exn :=
  match pdf_file with
  | Returns pages => first_raise pages
  | Raises e => Some e
  end.

Lemma read_pages_raise pages e : ∀ text,
  first_raise pages = Some e → read_pages pages text = Raises e.
Proof.
  induction pages as [|[t|e'] pages IH]; intros text H; simpl in *.
  - done.
  - by apply IH.
  - by injection H as ->.
Qed.

Lemma extract_pdf_text_failure pdf_file e :
  pdf_failure pdf_file = Some e →
  extract_pdf_text pdf_file = (Returns "", ["Error reading PDF: " +:+ exn_str e]).
Proof.
  unfold extract_pdf_text. destruct pdf_file as [pages|e']; simpl; intros H.
  - by rewrite (read_pages_raise _ e).
  - by injection H as ->.
Qed.

(** The text a call of [process_document] hands back under 'raw_text'. *)
Definition result_text {DataFrame : Type}
    (o : outcome (extraction DataFrame * processor DataFrame * list string))
    : option string :=
  match o with
  | Returns (ed, _, _) => raw_text ed
  | Raises _ => None
  end.

Section DocumentProcessorFacts.
Context {DataFrame : Type} (to_string : DataFrame → string).

(** Each sheet's rendering followed by a newline, in the order given. *)
Definition combined_text (sheets : list (string * DataFrame)) : string :=
  foldr (λ sheet acc, to_string sheet.2 +:+ nl +:+ acc) "" sheets.

Definition processed (sheet : string * DataFrame) : string * sheet_data DataFrame :=
  (sheet.1, SheetData sheet.2 (to_string sheet.2)).

Lemma fold_dict_set sheets : ∀ acc : list (string * sheet_data DataFrame),
  NoDup (acc.*1 ++ sheets.*1) →
  fold_left (λ processed_data '(sheet_name, df),
               dict_set sheet_name (SheetData df (to_string df)) processed_data)
            sheets acc
  = acc ++ map processed sheets.
Proof.
  induction sheets as [|[name df] sheets IH]; intros acc Hnd; simpl.
  - by rewrite app_nil_r.
  - simpl in Hnd. apply NoDup_app in Hnd as (Hacc & Hdisj & Hsheets).
    apply NoDup_cons in Hsheets as [Hname Hsheets].
    rewrite dict_set_fresh.
    2:{ intros Hin. apply (Hdisj _ Hin). apply list_elem_of_here. }
    rewrite IH.
    + by rewrite <- app_assoc.
    + rewrite fmap_app. simpl. rewrite <- app_assoc. simpl.
      apply NoDup_app. split; [done|]. split; [|by apply NoDup_cons].
      done.
Qed.

Lemma fold_sheet_text sheets : ∀ acc : string,
  fold_left (λ all_text (sheet : string * sheet_data DataFrame),
               all_text +:+ sheet_text sheet.2 +:+ nl)
            (map processed sheets) acc
  = acc +:+ combined_text sheets.
Proof.
  induction sheets as [|[name df] sheets IH]; intros acc; simpl.
  - by rewrite str_app_nil_r.
  - rewrite IH. by rewrite !str_app_assoc.
Qed.

(** C9: for a workbook that is read without error (its sheet names are
    distinct, as in every workbook), processing returns, and the combined
    text it returns is each sheet's rendering followed by a newline, in
    workbook order; for the sheets A then B, A's rendering comes first. *)
Theorem workbook_text_in_sheet_order self file sheets :
  as_excel file = Returns sheets → NoDup sheets.*1 →
  result_text (process_document to_string self file "excel")
  = Some (combined_text sheets).
Proof.
  intros Hfile Hnd. unfold process_document, read_document.
  rewrite bool_decide_eq_false_2 by done.
  rewrite bool_decide_eq_true_2 by done.
  unfold extract_excel_data. rewrite Hfile.
  rewrite fold_dict_set by done. simpl app.
  rewrite fold_sheet_text. done.
Qed.

(** C2 (amended): for a malformed or unreadable PDF, whose reading raises
    [e], text extraction does not fail: it shows "Error reading PDF: " and
    the cause and returns the empty text; processing then returns normally
    an extraction result with the empty text and no metric. *)
Theorem malformed_pdf_gives_empty_result self file e :
  pdf_failure (as_pdf file) = Some e →
  extract_pdf_text (as_pdf file)
  = (Returns "", ["Error reading PDF: " +:+ exn_str e])
  ∧ process_document to_string self file "pdf"
    = Returns (Extraction_ (excel_sheets (self_extracted_data self)) (Some ∅) (Some ""),
               Processor (Extraction_ (excel_sheets (self_extracted_data self))
                                      (Some ∅) (Some "")) "",
               ["Error reading PDF: " +:+ exn_str e]).
Proof.
  intros Hfail. apply extract_pdf_text_failure in Hfail. split; [done|].
  unfold process_document, read_document.
  rewrite bool_decide_eq_true_2 by done. rewrite Hfail. simpl.
  by replace (extract_financial_metrics "") with (∅ : gmap string py_value)
    by by vm_compute.
Qed.
End DocumentProcessorFacts.

(** A PDF that [PdfReader] refuses to open. *)
Definition broken_pdf : uploaded_file unit :=
  Upload (Raises (Exn OtherException "EOF marker not found"))
         (Raises (Exn OtherException "File is not a zip file")).

(** C2, as stated, fails: on a PDF the reader cannot open neither text
    extraction nor document processing ends with an exception. *)
Lemma malformed_pdf_does_not_abort :
  ¬ ((∃ e, (extract_pdf_text (as_pdf broken_pdf)).1 = Raises e)
     ∨ (∃ e, process_document (λ _ : unit, "") new_processor broken_pdf "pdf" = Raises e)).
Proof. intros [[e H]|[e H]]; vm_compute in H; discriminate H. Qed.

Lemma malformed_pdf_gives_empty_result_witness :
  extract_pdf_text (as_pdf broken_pdf)
  = (Returns "", ["Error reading PDF: EOF marker not found"])
  ∧ process_document (λ _ : unit, "") new_processor broken_pdf "pdf"
    = Returns (Extraction_ None (Some ∅) (Some ""),
               Processor (Extraction_ None (Some ∅) (Some "")) "",
               ["Error reading PDF: EOF marker not found"]).
Proof.
  apply (malformed_pdf_gives_empty_result (λ _ : unit, "") new_processor broken_pdf
           (Exn OtherException "EOF marker not found")).
  reflexivity.
Defined.

(** Sheets A and B, each data frame given by its rendering. *)
Definition two_sheets : uploaded_file string :=
  Upload (Raises (Exn OtherException "EOF marker not found"))
         (Returns [("A", "rows of A"); ("B", "rows of B")]).

Lemma workbook_text_in_sheet_order_witness :
  result_text (process_document (λ df : string, df) new_processor two_sheets "excel")
  = Some ("rows of A" +:+ nl +:+ "rows of B" +:+ nl).
Proof.
  apply (workbook_text_in_sheet_order (λ df : string, df) new_processor two_sheets
           [("A", "rows of A"); ("B", "rows of B")]).
  - reflexivity.
  - by apply (bool_decide_unpack _); vm_compute.
Defined.

(** ** Questions and answers *)

(** An endpoint that refuses the connection. *)
Definition refusing (_ : http_request) : outcome http_response :=
  Raises (Exn ConnectionError "Connection refused").

(** An endpoint that accepts the request and does not answer in time. *)
Definition timing_out (_ : http_request) : outcome http_response :=
  Raises (Exn ReadTimeout "Read timed out. (read timeout=30)").

(** An endpoint that answers. *)
Definition answering (_ : http_request) : outcome http_response :=
  Returns (Response 200 (Returns (ObjStr "Revenue was $1,234,567.89."))).

(** C3, as stated, fails: with an endpoint that refuses the connection,
    asking "What was revenue?" does not end with a failure of any type. *)
Lemma refused_connection_not_a_failure :
  ¬ ∃ e, generate_response default_client refusing "What was revenue?"
           "Total Revenue: $1,234,567.89" = Raises e.
Proof. intros [e H]. vm_compute in H. discriminate H. Qed.

(** C3 (amended): for every question and context, when the endpoint
    refuses the connection the call returns, as an ordinary answer string,
    the fixed message "Error: Could not connect to Ollama. Please make sure
    Ollama is running on localhost:11434". *)
Theorem refused_connection_message self post prompt context e :
  post (request_of self prompt context) = Raises e →
  exn_class_of e = ConnectionError →
  generate_response self post prompt context = Returns (ObjStr connection_message).
Proof.
  intros Hpost Hcls. unfold generate_response, generate_response_body.
  rewrite Hpost. unfold is_connection_error. by rewrite Hcls.
Qed.

Lemma refused_connection_message_witness :
  generate_response default_client refusing "What was revenue?"
    "Total Revenue: $1,234,567.89"
  = Returns (ObjStr connection_message).
Proof.
  apply (refused_connection_message default_client refusing "What was revenue?"
           "Total Revenue: $1,234,567.89" (Exn ConnectionError "Connection refused"));
    reflexivity.
Defined.

(** C8, as stated, fails: when the wait for the answer times out, the call
    does not end as it does when the endpoint is unreachable. *)
Lemma timeout_differs_from_unreachable :
  generate_response default_client timing_out "What was revenue?"
    "Total Revenue: $1,234,567.89"
  ≠ generate_response default_client refusing "What was revenue?"
      "Total Revenue: $1,234,567.89".
Proof. vm_compute. discriminate. Qed.

(** C8 (amended): for every question and context, when the request times
    out the call returns an ordinary answer string: the fixed message of an
    unreachable endpoint when the time-out is one of connecting, and
    "Error: " followed by the text of the exception when it is one of
    reading the answer. *)
Theorem timeout_message self post prompt context e :
  post (request_of self prompt context) = Raises e →
  is_timeout e = true →
  generate_response self post prompt context
  = Returns (ObjStr (match exn_class_of e with
                     | ReadTimeout => "Error: " +:+ exn_str e
                     | _ => connection_message
                     end)).
Proof.
  intros Hpost Htime. unfold generate_response, generate_response_body.
  rewrite Hpost. unfold is_connection_error, is_timeout in *.
  by destruct (exn_class_of e).
Qed.

Lemma timeout_message_witness :
  generate_response default_client timing_out "What was revenue?"
    "Total Revenue: $1,234,567.89"
  = Returns (ObjStr "Error: Read timed out. (read timeout=30)").
Proof.
  apply (timeout_message default_client timing_out "What was revenue?"
           "Total Revenue: $1,234,567.89"
           (Exn ReadTimeout "Read timed out. (read timeout=30)"));
    reflexivity.
Defined.

(** The request did not bring back an answer: an exception left
    [requests.post], the status is not 200, or reading the answer out of the
    body raised. *)
Definition failed (o : outcome http_response) : Prop :=
  match o with
  | Returns response =>
      status_code response ≠ 200%Z ∨ ∃ e, json_response response = Raises e
  | Raises _ => True
  end.

(** An endpoint that answers 200 with a number under 'response'. *)
Definition answering_number (_ : http_request) : outcome http_response :=
  Returns (Response 200 (Returns (ObjOther "42"))).

(** C10, as stated, fails: when the endpoint answers 200 with a body whose
    'response' is the number 42, the call returns that number, which is not
    a string. *)
Lemma number_answer_not_a_string :
  ¬ ∃ s, generate_response default_client answering_number "What was revenue?"
           "Total Revenue: $1,234,567.89" = Returns (ObjStr s).
Proof. intros [s H]. vm_compute in H. discriminate H. Qed.

(** C10 (amended): for every question and context the call never raises;
    every failure (refused connection, time-out, status other than 200, any
    other exception) comes back as an ordinary string that begins with
    "Error:"; and on a 200 response whose body can be read the call returns
    the value found under 'response' unchanged, a string like the error
    strings when that value is a text, and not a string when it is not. *)
Theorem generate_response_never_raises self post prompt context :
  (∃ v, generate_response self post prompt context = Returns v)
  ∧ (failed (post (request_of self prompt context)) →
     ∃ msg, generate_response self post prompt context
            = Returns (ObjStr ("Error:" +:+ msg)))
  ∧ (∀ response v,
       post (request_of self prompt context) = Returns response →
       status_code response = 200%Z → json_response response = Returns v →
       generate_response self post prompt context = Returns v).
Proof.
  unfold generate_response, generate_response_body, failed.
  destruct (post (request_of self prompt context)) as [response|e].
  - destruct (Z.eqb_spec (status_code response) 200) as [Hst|Hst].
    + destruct (json_response response) as [v|e] eqn:Hjson.
      * split; [by eexists|]. split.
        -- intros [?|[e' ?]]; done.
        -- intros response' v' [= <-] _ Hv. rewrite Hjson in Hv.
           by injection Hv as <-.
      * assert (∃ msg, (if is_connection_error e
                        then Returns (ObjStr connection_message)
                        else Returns (ObjStr ("Error: " +:+ exn_str e)))
                       = Returns (ObjStr ("Error:" +:+ msg))) as [msg Hmsg].
        { destruct (is_connection_error e); eexists; reflexivity. }
        rewrite Hmsg. split; [by eexists|]. split; [intros _; by eexists|].
        intros response' v' [= <-] _ Hv. by rewrite Hjson in Hv.
    + split; [by eexists|]. split; [intros _; eexists; reflexivity|].
      intros response' v' [= <-] Hst'. done.
  - assert (∃ msg, (if is_connection_error e
                    then Returns (ObjStr connection_message)
                    else Returns (ObjStr ("Error: " +:+ exn_str e)))
                   = Returns (ObjStr ("Error:" +:+ msg))) as [msg Hmsg].
    { destruct (is_connection_error e); eexists; reflexivity. }
    rewrite Hmsg. split; [by eexists|]. split; [intros _; by eexists|].
    intros response' v' Hpost. discriminate Hpost.
Qed.

Example number_answer_unmodified :
  generate_response default_client answering_number "What was revenue?"
    "Total Revenue: $1,234,567.89"
  = Returns (ObjOther "42").
Proof. reflexivity. Qed.

Example status_404_message :
  generate_response default_client
    (λ _, Returns (Response 404 (Raises (Exn OtherException "Expecting value"))))
    "What was revenue?" "Total Revenue: $1,234,567.89"
  = Returns (ObjStr "Error: Could not connect to Ollama (Status: 404)").
Proof. reflexivity. Qed.

Example answer_unmodified :
  generate_response default_client answering "What was revenue?"
    "Total Revenue: $1,234,567.89"
  = Returns (ObjStr "Revenue was $1,234,567.89.").
Proof. reflexivity. Qed.

(** * More of the code *)

(** ** [extract_financial_metrics]: what the mapping can hold *)

Lemma patterns_names : patterns.*1 = synonyms.*1.
Proof. reflexivity. Qed.

Lemma extract_lookup_undeclared text m :
  m ∉ synonyms.*1 → extract_financial_metrics text !! m = None.
Proof.
  intros Hm. unfold extract_financial_metrics.
  rewrite fold_extract_other; [done|]. by rewrite patterns_names.
Qed.

Lemma extract_lookup_Some text m v :
  extract_financial_metrics text !! m = Some v →
  ∃ syns, (m, syns) ∈ synonyms ∧
          metric_value (lower text) (metric_re syns) = Some v.
Proof.
  intros H. destruct (decide (m ∈ synonyms.*1)) as [Hin|Hout].
  - apply list_elem_of_fmap in Hin as ([m' syns] & -> & Hin). simpl in *.
    exists syns. split; [done|]. by rewrite <- (extract_lookup text m' syns).
  - by rewrite extract_lookup_undeclared in H.
Qed.

Lemma decimal_nonneg ds fd : (0 <= decimal ds fd)%Q.
Proof.
  unfold decimal. rewrite Qred_correct. unfold Qle. simpl. lia.
Qed.

(** What a pattern stores: a number that is not negative, or the empty
    string. *)
Lemma metric_value_shape syns low v :
  syns ≠ [] → metric_value low (metric_re syns) = Some v →
  (∃ q, v = PyFloat q ∧ (0 <= q)%Q) ∨ v = PyStr "".
Proof.
  intros Hne. unfold metric_value, findall.
  destruct (findall_from (metric_re syns) (chars low) 0) as [|x xs] eqn:E; [done|].
  destruct (findall_from_elem (metric_re syns) x (chars low) 0)
    as (p & q & cap & rest & _ & Hq & ->); [rewrite E; apply list_elem_of_here|].
  apply metric_match_sound in Hq as (tok & -> & L); [|done].
  destruct L as (_ & _ & _ & _ & (ip & fd & -> & _ & Hip & Hfd) & _).
  simpl. intros [= <-].
  destruct (py_float _) as [x|] eqn:Hfloat.
  - left. exists x. split; [done|].
    rewrite clean_token in Hfloat by done.
    rewrite py_float_digits in Hfloat by auto using no_commas_digits.
    destruct (Nat.eqb _ 0); [done|]. injection Hfloat as <-.
    apply decimal_nonneg.
  - right. f_equal. by apply py_float_token_None.
Qed.

(** X1: whenever a label of a metric, followed (after optional white space,
    colons or dollar signs) by a digit or a comma, occurs anywhere in the
    lower-cased text, the metric's key is present in the result, whatever
    follows that character. *)
Theorem labelled_figure_always_extracted text m syns :
  (m, syns) ∈ synonyms → occurs syns (lower text) →
  is_Some (extract_financial_metrics text !! m).
Proof. intros Hm Hocc. by apply (present_iff_occurs text m syns). Qed.

Lemma labelled_figure_always_extracted_witness :
  is_Some (extract_financial_metrics "Q3 SALES,, up" !! "revenue").
Proof.
  apply (labelled_figure_always_extracted _ "revenue" ["revenue"; "sales"; "income"]).
  - by apply (bool_decide_unpack _); vm_compute.
  - by apply (bool_decide_unpack _); vm_compute.
Defined.

(** X2: for every text, the keys of the result are among the six declared
    metric names. *)
Theorem extracted_keys_declared text :
  dom (extract_financial_metrics text) ⊆ (list_to_set synonyms.*1 : gset string).
Proof.
  intros m Hm. apply elem_of_dom in Hm. apply elem_of_list_to_set.
  destruct (decide (m ∈ synonyms.*1)) as [Hin|Hout]; [done|].
  rewrite extract_lookup_undeclared in Hm by done. by destruct Hm.
Qed.

(** X3: for every text, a value stored for a metric is either a number that
    is not negative (no sign is ever captured) or the empty string; no other
    string is ever stored. *)
Theorem extracted_value_shape text m v :
  extract_financial_metrics text !! m = Some v →
  (∃ q, v = PyFloat q ∧ (0 <= q)%Q) ∨ v = PyStr "".
Proof.
  intros H. apply extract_lookup_Some in H as (syns & Hm & H).
  destruct (synonyms_distinct _ _ Hm) as [_ Hne].
  by apply (metric_value_shape syns (lower text)).
Qed.

Lemma extracted_value_shape_witness :
  (∃ q, PyFloat 500 = PyFloat q ∧ (0 <= q)%Q) ∨ PyFloat 500 = PyStr "".
Proof.
  apply (extracted_value_shape "Net loss: -500 against costs of $1. Costs: 500"
           "expenses" (PyFloat 500)).
  reflexivity.
Defined.

(** X4: the label "income" of revenue lies inside the label "net income" of
    profit: when the leftmost figure of both metrics is the one after "net
    income", revenue and profit receive the same value. *)
Theorem net_income_counts_as_revenue text pre sep num post :
  lower text = pre +:+ "net income" +:+ sep +:+ num +:+ post →
  no_occurrence_before ["profit"; "net income"; "earnings"] pre
    ("net income" +:+ sep +:+ num +:+ post) →
  no_occurrence_before ["revenue"; "sales"; "income"] (pre +:+ "net ")
    ("income" +:+ sep +:+ num +:+ post) →
  separators sep = true → well_formed_number num = true →
  number_ends num post = true →
  ∃ q, extract_financial_metrics text !! "profit" = Some (PyFloat q) ∧
       extract_financial_metrics text !! "revenue" = Some (PyFloat q).
Proof.
  intros Htext Hprofit Hrevenue Hsep Hnum Hend.
  destruct (first_occurrence_value text "profit" ["profit"; "net income"; "earnings"]
              pre "net income" sep num post) as (q & Hq & Hp); try done.
  { by apply (bool_decide_unpack _); vm_compute. }
  { by apply (bool_decide_unpack _); vm_compute. }
  destruct (first_occurrence_value text "revenue" ["revenue"; "sales"; "income"]
              (pre +:+ "net ") "income" sep num post) as (q' & Hq' & Hr); try done.
  { by apply (bool_decide_unpack _); vm_compute. }
  { by apply (bool_decide_unpack _); vm_compute. }
  { by rewrite Htext, str_app_assoc. }
  exists q. split; [done|]. rewrite Hr. congruence.
Qed.

Lemma net_income_counts_as_revenue_witness :
  ∃ q, extract_financial_metrics "Net Income: $45,000" !! "profit" = Some (PyFloat q) ∧
       extract_financial_metrics "Net Income: $45,000" !! "revenue" = Some (PyFloat q).
Proof.
  apply (net_income_counts_as_revenue "Net Income: $45,000" "" ": $" "45,000" "");
    try (by apply (bool_decide_unpack _); vm_compute); reflexivity.
Defined.

Lemma lower_char_idemp c : lower_char (lower_char c) = lower_char c.
Proof. destruct c as [[] [] [] [] [] [] [] []]; reflexivity. Qed.

Lemma lower_lower text : lower (lower text) = lower text.
Proof.
  unfold lower. rewrite chars_text_of, map_map. f_equal.
  apply map_ext. intros c. apply lower_char_idemp.
Qed.

(** X5: extraction does not depend on letter case: a text and its
    lower-cased form give the same mapping. *)
Theorem extraction_ignores_case text :
  extract_financial_metrics (lower text) = extract_financial_metrics text.
Proof. unfold extract_financial_metrics. by rewrite lower_lower. Qed.

Lemma num_char_lower c : num_char (lower_char c) = num_char c.
Proof. destruct c as [[] [] [] [] [] [] [] []]; reflexivity. Qed.

(** X6: a text that holds no digit and no comma (the empty text among them)
    gives the empty mapping. *)
Theorem no_figures_no_metrics text :
  (∀ c, c ∈ chars text → num_char c = false) →
  extract_financial_metrics text = ∅.
Proof.
  intros Hnone. apply map_eq. intros m. rewrite lookup_empty.
  destruct (extract_financial_metrics text !! m) as [v|] eqn:E; [|done].
  exfalso. destruct (extract_lookup_Some _ _ _ E) as (syns & Hm & _).
  assert (is_Some (extract_financial_metrics text !! m)) as Hsome by by rewrite E.
  apply (present_iff_occurs text m syns Hm) in Hsome
    as (p & q & Hpq & syn & sep & c & rest & _ & _ & Hc & ->).
  assert (c ∈ chars (lower text)) as Hin.
  { rewrite Hpq. rewrite !elem_of_app. right. right. right. apply list_elem_of_here. }
  unfold lower in Hin. rewrite chars_text_of in Hin.
  apply list_elem_of_fmap in Hin as (c' & -> & Hin).
  rewrite num_char_lower in Hc. by rewrite (Hnone c' Hin) in Hc.
Qed.

Lemma no_figures_no_metrics_witness :
  extract_financial_metrics "Revenue rose while costs fell; profit: n/a." = ∅.
Proof.
  apply no_figures_no_metrics.
  apply Forall_forall. by apply (bool_decide_unpack _); vm_compute.
Defined.

(** ** [extract_pdf_text] and [process_document]: texts, failures, state *)

(** Each page's text followed by a newline, in page order. *)
Definition pages_text (texts : list string) : string :=
  foldr (λ page_text acc, page_text +:+ nl +:+ acc) "" texts.

Lemma read_pages_all texts : ∀ text,
  read_pages (map Returns texts) text = Returns (text +:+ pages_text texts).
Proof.
  induction texts as [|t texts IH]; intros text; simpl.
  - by rewrite str_app_nil_r.
  - rewrite IH. by rewrite !str_app_assoc.
Qed.

(** The sheets a call of [process_document] hands back under
    'excel_sheets'. *)
Definition result_sheets {DataFrame : Type}
    (o : outcome (extraction DataFrame * processor DataFrame * list string))
    : option (list (string * sheet_data DataFrame)) :=
  match o with
  | Returns (ed, _, _) => excel_sheets ed
  | Raises _ => None
  end.

(** The messages a call of [process_document] shows with [st.error]. *)
Definition result_messages {DataFrame : Type}
    (o : outcome (extraction DataFrame * processor DataFrame * list string))
    : list string :=
  match o with
  | Returns (_, _, ui) => ui
  | Raises _ => []
  end.

Section MoreDocumentProcessorFacts.
Context {DataFrame : Type} (to_string : DataFrame → string).

(** X7: for a PDF whose pages are all read, the text is every page's text
    followed by a newline (the last page too, and a page without text gives
    a bare newline), in page order; nothing is shown, and processing
    returns that text. *)
Theorem pdf_text_in_page_order self file texts :
  as_pdf file = Returns (map Returns texts) →
  extract_pdf_text (as_pdf file) = (Returns (pages_text texts), [])
  ∧ result_text (process_document to_string self file "pdf")
    = Some (pages_text texts).
Proof.
  intros Hfile.
  assert (extract_pdf_text (as_pdf file) = (Returns (pages_text texts), [])) as Hread.
  { unfold extract_pdf_text. rewrite Hfile, read_pages_all. done. }
  split; [done|]. unfold process_document, read_document.
  rewrite bool_decide_eq_true_2 by done. by rewrite Hread.
Qed.

(** X8: for a workbook that [pandas] cannot read, raising [e], processing
    does not fail: it shows "Error reading Excel file: " and the cause, and
    returns a result with no sheet, the empty text and no metric. *)
Theorem unreadable_workbook_gives_empty_result self file e :
  as_excel file = Raises e →
  process_document to_string self file "excel"
  = Returns (Extraction_ (Some []) (Some ∅) (Some ""),
             Processor (Extraction_ (Some []) (Some ∅) (Some "")) "",
             ["Error reading Excel file: " +:+ exn_str e]).
Proof.
  intros Hfile. unfold process_document, read_document.
  rewrite bool_decide_eq_false_2 by done.
  rewrite bool_decide_eq_true_2 by done.
  unfold extract_excel_data. rewrite Hfile. simpl.
  by replace (extract_financial_metrics "") with (∅ : gmap string py_value)
    by by vm_compute.
Qed.

(** X9: with a file type that is neither "pdf" nor "excel" no reader is
    consulted and nothing is shown: the text the processor held before the
    call is returned, with the metrics of that text. *)
Theorem other_file_type_reads_nothing self file file_type :
  file_type ≠ "pdf" → file_type ≠ "excel" →
  process_document to_string self file file_type
  = Returns (Extraction_ (excel_sheets (self_extracted_data self))
               (Some (extract_financial_metrics (self_raw_text self)))
               (Some (self_raw_text self)),
             Processor (Extraction_ (excel_sheets (self_extracted_data self))
                          (Some (extract_financial_metrics (self_raw_text self)))
                          (Some (self_raw_text self)))
                       (self_raw_text self),
             []).
Proof.
  intros Hpdf Hexcel. unfold process_document, read_document.
  by rewrite !bool_decide_eq_false_2 by done.
Qed.

Lemma process_document_returns self file file_type :
  ∃ ed self' ui,
    process_document to_string self file file_type = Returns (ed, self', ui)
    ∧ self_extracted_data self' = ed
    ∧ raw_text ed = Some (self_raw_text self')
    ∧ metrics ed = Some (extract_financial_metrics (self_raw_text self')).
Proof.
  assert (∃ self1 ui, read_document to_string self file file_type
                      = Returns (self1, ui)) as (self1 & ui & Hread).
  { unfold read_document. case_bool_decide; [|case_bool_decide].
    - unfold extract_pdf_text.
      destruct (match as_pdf file with
                | Returns pages => read_pages pages ""
                | Raises e => Raises e
                end); eauto.
    - unfold extract_excel_data. destruct (as_excel file); eauto.
    - eauto. }
  unfold process_document. rewrite Hread. by eexists _, _, _.
Qed.

(** X10: [process_document] never raises, whatever the file, the file type
    and the readers do; what it returns is the processor's own dictionary,
    its 'raw_text' is the text the processor now holds, and its 'metrics'
    are the metrics of exactly that text. *)
Theorem process_document_consistent self file file_type :
  ∃ ed self' ui,
    process_document to_string self file file_type = Returns (ed, self', ui)
    ∧ self_extracted_data self' = ed
    ∧ raw_text ed = Some (self_raw_text self')
    ∧ metrics ed = Some (extract_financial_metrics (self_raw_text self')).
Proof. apply process_document_returns. Qed.

(** X11: for a workbook that is read without error, the sheets kept under
    'excel_sheets' are the workbook's sheets, under their names and in
    workbook order, each with its data frame and that frame's rendering. *)
Theorem workbook_sheets_retained self file sheets :
  as_excel file = Returns sheets → NoDup sheets.*1 →
  result_sheets (process_document to_string self file "excel")
  = Some (map (processed to_string) sheets)
  ∧ result_messages (process_document to_string self file "excel") = [].
Proof.
  intros Hfile Hnd. unfold process_document, read_document.
  rewrite bool_decide_eq_false_2 by done.
  rewrite bool_decide_eq_true_2 by done.
  unfold extract_excel_data. rewrite Hfile.
  by rewrite fold_dict_set by done.
Qed.

(** X12: a processor that is used again keeps its dictionary: after a
    workbook, processing a PDF with the same processor returns the PDF's
    text together with the sheets of the workbook, while a new processor
    returns a PDF's result without the key 'excel_sheets'. *)
Theorem sheets_survive_later_pdf self workbook sheets pdf :
  as_excel workbook = Returns sheets → NoDup sheets.*1 →
  ∃ ed1 self1 ui1,
    process_document to_string self workbook "excel" = Returns (ed1, self1, ui1)
    ∧ result_sheets (process_document to_string self1 pdf "pdf")
      = Some (map (processed to_string) sheets)
    ∧ result_text (process_document to_string self1 pdf "pdf")
      = result_text (process_document to_string new_processor pdf "pdf")
    ∧ result_sheets (process_document to_string new_processor pdf "pdf") = None.
Proof.
  intros Hfile Hnd.
  pose proof (Hfold := fold_dict_set to_string sheets [] Hnd).
  unfold process_document, read_document.
  rewrite bool_decide_eq_false_2 by done.
  rewrite bool_decide_eq_true_2 by done.
  unfold extract_excel_data. rewrite Hfile.
  rewrite Hfold. simpl app.
  eexists _, _, _. split; [reflexivity|].
  rewrite !bool_decide_eq_true_2 by done.
  unfold extract_pdf_text.
  destruct (match as_pdf pdf with
            | Returns pages => read_pages pages ""
            | Raises e => Raises e
            end); done.
Qed.
End MoreDocumentProcessorFacts.

(** A PDF of three pages, the second without text. *)
Definition three_pages : uploaded_file unit :=
  Upload (Returns [Returns "Revenue: 5"; Returns ""; Returns "Costs: 3"])
         (Raises (Exn OtherException "File is not a zip file")).

Lemma pdf_text_in_page_order_witness :
  extract_pdf_text (as_pdf three_pages)
  = (Returns ("Revenue: 5" +:+ nl +:+ nl +:+ "Costs: 3" +:+ nl), [])
  ∧ result_text (process_document (λ _ : unit, "") new_processor three_pages "pdf")
    = Some ("Revenue: 5" +:+ nl +:+ nl +:+ "Costs: 3" +:+ nl).
Proof.
  apply (pdf_text_in_page_order (λ _ : unit, "") new_processor three_pages
           ["Revenue: 5"; ""; "Costs: 3"]).
  reflexivity.
Defined.

Lemma unreadable_workbook_gives_empty_result_witness :
  process_document (λ _ : unit, "") new_processor three_pages "excel"
  = Returns (Extraction_ (Some []) (Some ∅) (Some ""),
             Processor (Extraction_ (Some []) (Some ∅) (Some "")) "",
             ["Error reading Excel file: File is not a zip file"]).
Proof.
  apply (unreadable_workbook_gives_empty_result (λ _ : unit, "") new_processor
           three_pages (Exn OtherException "File is not a zip file")).
  reflexivity.
Defined.

Lemma other_file_type_reads_nothing_witness :
  process_document (λ _ : unit, "") new_processor three_pages "PDF"
  = Returns (Extraction_ None (Some ∅) (Some ""),
             Processor (Extraction_ None (Some ∅) (Some "")) "",
             []).
Proof.
  apply (other_file_type_reads_nothing (λ _ : unit, "") new_processor three_pages "PDF");
    discriminate.
Defined.

Lemma workbook_sheets_retained_witness :
  result_sheets (process_document (λ df : string, df) new_processor two_sheets "excel")
  = Some [("A", SheetData "rows of A" "rows of A"); ("B", SheetData "rows of B" "rows of B")]
  ∧ result_messages (process_document (λ df : string, df) new_processor two_sheets "excel")
    = [].
Proof.
  apply (workbook_sheets_retained (λ df : string, df) new_processor two_sheets
           [("A", "rows of A"); ("B", "rows of B")]).
  - reflexivity.
  - by apply (bool_decide_unpack _); vm_compute.
Defined.

Lemma sheets_survive_later_pdf_witness :
  ∃ ed1 self1 ui1,
    process_document (λ df : string, df) new_processor two_sheets "excel"
    = Returns (ed1, self1, ui1)
    ∧ result_sheets (process_document (λ df : string, df) self1 two_sheets "pdf")
      = Some [("A", SheetData "rows of A" "rows of A");
              ("B", SheetData "rows of B" "rows of B")]
    ∧ result_text (process_document (λ df : string, df) self1 two_sheets "pdf")
      = result_text (process_document (λ df : string, df) new_processor two_sheets "pdf")
    ∧ result_sheets (process_document (λ df : string, df) new_processor two_sheets "pdf")
      = None.
Proof.
  apply (sheets_survive_later_pdf (λ df : string, df) new_processor two_sheets
           [("A", "rows of A"); ("B", "rows of B")] two_sheets).
  - reflexivity.
  - by apply (bool_decide_unpack _); vm_compute.
Defined.

(** ** [generate_response]: the context sent, the status reported *)

Lemma truncate_head head tail :
  length (chars head) = 2000 → truncate (head +:+ tail) = head.
Proof.
  intros Hlen. unfold truncate. rewrite chars_app.
  rewrite take_app_length' by done. apply text_of_chars.
Qed.

(** An endpoint that answers with the prompt it was sent. *)
Definition echoing (request : http_request) : outcome http_response :=
  Returns (Response 200 (Returns (ObjStr (prompt_field (json request))))).

(** X13: only the first 2000 characters of the context reach the request:
    two contexts that share them give the same request, hence the same
    result, whatever follows them. *)
Theorem context_beyond_2000_ignored self post prompt head tail1 tail2 :
  length (chars head) = 2000 →
  request_of self prompt (head +:+ tail1) = request_of self prompt (head +:+ tail2)
  ∧ generate_response self post prompt (head +:+ tail1)
    = generate_response self post prompt (head +:+ tail2).
Proof.
  intros Hlen.
  assert (request_of self prompt (head +:+ tail1)
          = request_of self prompt (head +:+ tail2)) as Hreq.
  { unfold request_of, full_prompt. by rewrite !truncate_head. }
  split; [done|]. unfold generate_response, generate_response_body. by rewrite Hreq.
Qed.

Lemma context_beyond_2000_ignored_witness :
  request_of default_client "What was revenue?"
    (text_of (replicate 2000 "x"%char) +:+ "Revenue: 1")
  = request_of default_client "What was revenue?"
      (text_of (replicate 2000 "x"%char) +:+ "Revenue: 2")
  ∧ generate_response default_client echoing "What was revenue?"
      (text_of (replicate 2000 "x"%char) +:+ "Revenue: 1")
    = generate_response default_client echoing "What was revenue?"
        (text_of (replicate 2000 "x"%char) +:+ "Revenue: 2").
Proof.
  apply (context_beyond_2000_ignored default_client echoing "What was revenue?"
           (text_of (replicate 2000 "x"%char)) "Revenue: 1" "Revenue: 2").
  by vm_compute.
Defined.

Lemma str_of_int_inj (a b : Z) : str_of_int a = str_of_int b → a = b.
Proof.
  unfold str_of_int. intros H. apply to_int_inj.
  assert (∀ z, Z.to_int z ≠ Decimal.Pos Decimal.Nil
               ∧ Z.to_int z ≠ Decimal.Neg Decimal.Nil) as Hn.
  { intros [|p|p]; simpl; split; try discriminate;
      intros [= E]; by apply Unsigned.to_uint_nonnil in E. }
  destruct (Hn a) as [Ha1 Ha2]. destruct (Hn b) as [Hb1 Hb2].
  pose proof (NilZero.isi _ Ha1 Ha2) as Ea.
  pose proof (NilZero.isi _ Hb1 Hb2) as Eb.
  rewrite H in Ea. congruence.
Qed.

Lemma str_app_inv_tail (a b c : string) : a +:+ c = b +:+ c → a = b.
Proof.
  intros H. apply chars_inj. apply (f_equal chars) in H.
  rewrite !chars_app in H. by apply app_inv_tail in H.
Qed.

(** X14: a response whose status is not 200 (201 and 204 among them) gives
    the string "Error: Could not connect to Ollama (Status: <status>)"; its
    body is not read, and two such results are equal exactly when the two
    statuses are. *)
Theorem status_error_carries_code self prompt context post1 post2 r1 r2 :
  post1 (request_of self prompt context) = Returns r1 →
  post2 (request_of self prompt context) = Returns r2 →
  status_code r1 ≠ 200%Z → status_code r2 ≠ 200%Z →
  generate_response self post1 prompt context
  = Returns (ObjStr ("Error: Could not connect to Ollama (Status: "
                     +:+ str_of_int (status_code r1) +:+ ")"))
  ∧ (generate_response self post1 prompt context
     = generate_response self post2 prompt context
     ↔ status_code r1 = status_code r2).
Proof.
  intros H1 H2 Hs1 Hs2. unfold generate_response, generate_response_body.
  rewrite H1, H2.
  destruct (Z.eqb_spec (status_code r1) 200) as [?|_]; [done|].
  destruct (Z.eqb_spec (status_code r2) 200) as [?|_]; [done|].
  split; [done|]. split.
  - intros [= E]. apply String.app_inj in E.
    apply str_app_inv_tail in E. by apply str_of_int_inj.
  - by intros ->.
Qed.

Lemma status_error_carries_code_witness :
  generate_response default_client
    (λ _, Returns (Response 204 (Returns (ObjStr "Revenue was $5."))))
    "What was revenue?" "Revenue: 5"
  = Returns (ObjStr ("Error: Could not connect to Ollama (Status: "
                     +:+ str_of_int 204 +:+ ")"))
  ∧ (generate_response default_client
       (λ _, Returns (Response 204 (Returns (ObjStr "Revenue was $5."))))
       "What was revenue?" "Revenue: 5"
     = generate_response default_client
         (λ _, Returns (Response 500 (Raises (Exn OtherException "Expecting value"))))
         "What was revenue?" "Revenue: 5"
     ↔ 204%Z = 500%Z).
Proof.
  apply (status_error_carries_code default_client "What was revenue?" "Revenue: 5"
           (λ _, Returns (Response 204 (Returns (ObjStr "Revenue was $5."))))
           (λ _, Returns (Response 500 (Raises (Exn OtherException "Expecting value"))))
           (Response 204 (Returns (ObjStr "Revenue was $5.")))
           (Response 500 (Raises (Exn OtherException "Expecting value"))));
    try reflexivity; discriminate.
Defined.

(** ** [main]: uploads and questions *)

(** [name.endswith(suffix)] *)
Definition ends_with (suffix name : string) : bool :=
  bool_decide (drop (length (chars name) - length (chars suffix)) (chars name)
               = chars suffix).

(** What a run of [main] shows, as far as it is followed here: the messages
    of [st.error], the [st.success] after a document is processed, and the
    [st.success]/[st.write] pair that displays an answer.  Titles, metrics,
    previews and the other display calls are not represented. *)
Inductive ui_event :=
  | UiError (msg : string)
  | UiProcessed
  | UiAnswer (answer : py_obj).

Definition quick_questions : list string :=
  [ "What was the total revenue?";
    "What were the main expenses?";
    "What was the net profit?";
    "What are the total assets?";
    "Show me the key financial ratios" ].

Section Main.
Context {DataFrame : Type} (to_string : DataFrame → string).
(** [requests.post], answering a request the same way throughout a run. *)
Context (post : http_request → outcome http_response).

(** [st.session_state], once its two keys are initialised. *)
Record session := Session {
  document_data : option (extraction DataFrame);
  chat_history : list (string * py_obj)
}.

Definition new_session : session := Session None [].

(** What the widgets return in one run: the uploaded file with its name,
    the text typed, and which buttons were pressed. *)
Record run_inputs := RunInputs {
  uploaded_file_in : option (string * uploaded_file DataFrame);
  question_in : string;
  get_answer_in : bool;
  quick_in : string → bool
}.

(** The body shared by "Get Answer" and the quick questions. *)
Definition ask (ed : extraction DataFrame)
    (state : list (string * py_obj) * list ui_event) (question : string)
    : outcome (list (string * py_obj) * list ui_event) :=
  match raw_text ed with
  | Some context =>
      match generate_response default_client post question context with
      | Returns answer =>
          Returns (state.1 ++ [(question, answer)], state.2 ++ [UiAnswer answer])
      | Raises e => Raises e
      end
  | None => Raises (Exn OtherException "'raw_text'")
  end.

(** [for quick_q in quick_questions: if st.button(quick_q): ...] *)
Fixpoint ask_quick (ed : extraction DataFrame) (pressed : string → bool)
    (questions : list string) (state : list (string * py_obj) * list ui_event)
    : outcome (list (string * py_obj) * list ui_event) :=
  match questions with
  | [] => Returns state
  | quick_q :: questions' =>
      if pressed quick_q then
        match ask ed state quick_q with
        | Returns state' => ask_quick ed pressed questions' state'
        | Raises e => Raises e
        end
      else ask_quick ed pressed questions' state
  end.

(** The sidebar: an uploaded file is processed by a new processor and the
    result replaces the session's document. *)
Definition sidebar (inputs : run_inputs) (s : session)
    : outcome (session * list ui_event) :=
  match uploaded_file_in inputs with
  | Some (name, uploaded_file) =>
      let file_type := if ends_with ".pdf" name then "pdf" else "excel" in
      match process_document to_string new_processor uploaded_file file_type with
      | Returns (document_data, _, errors) =>
          Returns (Session (Some document_data) (chat_history s),
                   map UiError errors ++ [UiProcessed])
      | Raises e => Raises e
      end
  | None => Returns (s, [])
  end.

(** One run of the script, from a session to the session it leaves. *)
Definition main (inputs : run_inputs) (s : session)
    : outcome (session * list ui_event) :=
  match sidebar inputs s with
  | Returns (s1, shown) =>
      match document_data s1 with
      | None => Returns (s1, shown)
      | Some ed =>
          let typed :=
            if get_answer_in inputs && negb (bool_decide (question_in inputs = ""))
            then ask ed (chat_history s1, shown) (question_in inputs)
            else Returns (chat_history s1, shown) in
          match typed with
          | Returns state =>
              match ask_quick ed (quick_in inputs) quick_questions state with
              | Returns (history, shown') =>
                  Returns (Session (document_data s1) history, shown')
              | Raises e => Raises e
              end
          | Raises e => Raises e
          end
      end
  | Raises e => Raises e
  end.

(** The document of a session has its text. *)
Definition session_ok (s : session) : Prop :=
  ∀ ed, document_data s = Some ed → is_Some (raw_text ed).

(** The questions a run asks, in the order it asks them. *)
Definition asked (inputs : run_inputs) : list string :=
  (if get_answer_in inputs && negb (bool_decide (question_in inputs = ""))
   then [question_in inputs] else [])
  ++ filter (λ q, quick_in inputs q = true) quick_questions.

Lemma generate_response_returns self prompt context :
  ∃ answer, generate_response self post prompt context = Returns answer.
Proof.
  unfold generate_response.
  destruct (generate_response_body self post prompt context) as [v|e]; [by eexists|].
  destruct (is_connection_error e); by eexists.
Qed.

(** The answer a question gets on a context. *)
Definition answer_to (context question : string) : py_obj :=
  match generate_response default_client post question context with
  | Returns answer => answer
  | Raises _ => ObjStr ""
  end.

Lemma ask_returns ed context state question :
  raw_text ed = Some context →
  ask ed state question
  = Returns (state.1 ++ [(question, answer_to context question)],
             state.2 ++ [UiAnswer (answer_to context question)]).
Proof.
  intros Hctx. unfold ask, answer_to. rewrite Hctx.
  by destruct (generate_response_returns default_client question context) as [a ->].
Qed.

Lemma ask_quick_returns ed context pressed questions : ∀ state,
  raw_text ed = Some context →
  ask_quick ed pressed questions state
  = Returns (state.1 ++ map (λ q, (q, answer_to context q))
                            (filter (λ q, pressed q = true) questions),
             state.2 ++ map (λ q, UiAnswer (answer_to context q))
                            (filter (λ q, pressed q = true) questions)).
Proof.
  intros state Hctx. revert state.
  induction questions as [|q questions IH]; intros [history shown]; simpl.
  - by rewrite !app_nil_r.
  - destruct (pressed q) eqn:Hq.
    + rewrite (ask_returns ed context) by done. rewrite IH. simpl.
      rewrite filter_cons_True by done. simpl. by rewrite <- !app_assoc.
    + rewrite IH. simpl. rewrite filter_cons_False; [done|]. by rewrite Hq.
Qed.

Lemma sidebar_returns inputs s :
  ∃ s1 shown, sidebar inputs s = Returns (s1, shown)
    ∧ chat_history s1 = chat_history s
    ∧ (session_ok s ∨ is_Some (uploaded_file_in inputs) → session_ok s1).
Proof.
  unfold sidebar. destruct (uploaded_file_in inputs) as [[name file]|].
  - destruct (process_document_returns to_string new_processor file
                (if ends_with ".pdf" name then "pdf" else "excel"))
      as (ed & self' & ui & -> & _ & Htext & _).
    eexists _, _. split; [done|]. split; [done|].
    intros _ ed' [= <-]. by rewrite Htext.
  - eexists _, _. split; [done|]. split; [done|].
    intros [Hok|[? ?]]; done.
Qed.

(** The run after the sidebar, for a session that has a document with its
    text. *)
Lemma main_with_document inputs s s1 shown ed context :
  sidebar inputs s = Returns (s1, shown) →
  document_data s1 = Some ed → raw_text ed = Some context →
  main inputs s
  = Returns (Session (Some ed)
               (chat_history s1 ++ map (λ q, (q, answer_to context q)) (asked inputs)),
             shown ++ map (λ q, UiAnswer (answer_to context q)) (asked inputs)).
Proof.
  intros Hside Hdoc Hctx. unfold main, asked. rewrite Hside, Hdoc.
  destruct (get_answer_in inputs && negb (bool_decide (question_in inputs = ""))).
  - rewrite (ask_returns ed context) by done.
    rewrite (ask_quick_returns ed context) by done. simpl.
    by rewrite <- !app_assoc.
  - by rewrite (ask_quick_returns ed context) by done.
Qed.

(** X15: started from a session whose document (if any) has its text, a
    run of the upload and question handling never raises, whatever the
    readers and the endpoint do, and leaves such a session again; the new
    session is one of them. *)
Theorem main_keeps_session_ok inputs s :
  session_ok s →
  session_ok new_session
  ∧ ∃ s' shown, main inputs s = Returns (s', shown) ∧ session_ok s'.
Proof.
  intros Hok. split; [by intros ed|].
  destruct (sidebar_returns inputs s) as (s1 & shown & Hside & _ & Hok1).
  specialize (Hok1 (or_introl Hok)).
  destruct (document_data s1) as [ed|] eqn:Hdoc.
  - destruct (Hok1 ed Hdoc) as [context Hctx].
    rewrite (main_with_document inputs s s1 shown ed context) by done.
    eexists _, _. split; [done|]. intros ed' [= <-]. by rewrite Hctx.
  - unfold main. rewrite Hside, Hdoc. eexists _, _. split; [done|].
    intros ed. by rewrite Hdoc.
Qed.

(** X16: whenever a file is uploaded, the run shows the messages of the
    reader's errors, then the message that the document was processed
    (after a failed read as well), then the answers; the result of
    processing, which may be empty, becomes the session's document, so
    that questions can be asked about it. *)
Theorem upload_always_reports_success inputs s name file :
  uploaded_file_in inputs = Some (name, file) →
  ∃ ed self' errors context,
    process_document to_string new_processor file
      (if ends_with ".pdf" name then "pdf" else "excel")
    = Returns (ed, self', errors)
    ∧ raw_text ed = Some context
    ∧ main inputs s
      = Returns (Session (Some ed)
                   (chat_history s ++ map (λ q, (q, answer_to context q)) (asked inputs)),
                 map UiError errors ++ UiProcessed
                   :: map (λ q, UiAnswer (answer_to context q)) (asked inputs)).
Proof.
  intros Hup.
  destruct (process_document_returns to_string new_processor file
              (if ends_with ".pdf" name then "pdf" else "excel"))
    as (ed & self' & errors & Hproc & _ & Htext & _).
  exists ed, self', errors, (self_raw_text self'). split; [done|]. split; [done|].
  rewrite (main_with_document inputs s
             (Session (Some ed) (chat_history s))
             (map UiError errors ++ [UiProcessed]) ed (self_raw_text self')).
  - simpl. by rewrite <- app_assoc.
  - unfold sidebar. by rewrite Hup, Hproc.
  - done.
  - done.
Qed.

(** X17: a run never changes or removes a turn of the chat history, not
    even when a new document is uploaded; with a document in the session it
    appends one turn for each pressed button (the typed question first, and
    only if it is not empty, then the quick questions in their order), each
    turn holding the question and what [generate_response] returned for it
    on the document's text, an error string included; without a document it
    appends nothing. *)
Theorem chat_history_appended inputs s s' shown :
  session_ok s → main inputs s = Returns (s', shown) →
  match document_data s' with
  | Some ed =>
      ∃ context, raw_text ed = Some context
        ∧ chat_history s'
          = chat_history s ++ map (λ q, (q, answer_to context q)) (asked inputs)
  | None => chat_history s' = chat_history s
  end.
Proof.
  intros Hok Hmain.
  destruct (sidebar_returns inputs s) as (s1 & shown1 & Hside & Hchat & Hok1).
  specialize (Hok1 (or_introl Hok)).
  destruct (document_data s1) as [ed|] eqn:Hdoc.
  - destruct (Hok1 ed Hdoc) as [context Hctx].
    rewrite (main_with_document inputs s s1 shown1 ed context) in Hmain by done.
    injection Hmain as <- _. simpl. exists context. by rewrite Hchat.
  - unfold main in Hmain. rewrite Hside, Hdoc in Hmain.
    injection Hmain as <- _. by rewrite Hdoc.
Qed.

(** X18: the file type is read off the name with a case-sensitive test: a
    file whose name does not end in ".pdf" (as "REPORT.PDF") is handed to
    the workbook reader, and what the PDF reader would make of it plays no
    part in the run. *)
Theorem name_without_pdf_suffix_read_as_workbook name pdf1 pdf2 workbook
    question get_answer quick s :
  ends_with ".pdf" name = false →
  main (RunInputs (Some (name, Upload pdf1 workbook)) question get_answer quick) s
  = main (RunInputs (Some (name, Upload pdf2 workbook)) question get_answer quick) s
  ∧ sidebar (RunInputs (Some (name, Upload pdf1 workbook)) question get_answer quick) s
    = match process_document to_string new_processor (Upload pdf1 workbook) "excel" with
      | Returns (ed, _, errors) =>
          Returns (Session (Some ed) (chat_history s), map UiError errors ++ [UiProcessed])
      | Raises e => Raises e
      end.
Proof.
  intros Hname.
  assert (∀ pdf, sidebar (RunInputs (Some (name, Upload pdf workbook))
                            question get_answer quick) s
                 = match process_document to_string new_processor
                           (Upload pdf1 workbook) "excel" with
                   | Returns (ed, _, errors) =>
                       Returns (Session (Some ed) (chat_history s),
                                map UiError errors ++ [UiProcessed])
                   | Raises e => Raises e
                   end) as Hside.
  { intros pdf. unfold sidebar. simpl. rewrite Hname.
    unfold process_document, read_document.
    rewrite !bool_decide_eq_false_2 by done.
    by rewrite !bool_decide_eq_true_2 by done. }
  split; [|apply Hside]. unfold main. by rewrite !Hside.
Qed.
End Main.

Arguments session : clear implicits.
Arguments run_inputs : clear implicits.

(** A run that uploads a PDF the reader cannot open and asks a question of
    an endpoint that refuses the connection. *)
Definition broken_upload_run : run_inputs unit :=
  RunInputs (Some ("report.pdf", broken_pdf)) "What was revenue?" true (λ _, false).

Lemma main_keeps_session_ok_witness :
  session_ok (new_session : session unit)
  ∧ ∃ s' shown,
      main (λ _ : unit, "") refusing broken_upload_run new_session = Returns (s', shown)
      ∧ session_ok s'.
Proof.
  apply (main_keeps_session_ok (λ _ : unit, "") refusing broken_upload_run new_session).
  by intros ed.
Defined.

Lemma upload_always_reports_success_witness :
  main (λ _ : unit, "") refusing broken_upload_run new_session
  = Returns (Session (Some (Extraction_ None (Some ∅) (Some "")))
               [("What was revenue?", ObjStr connection_message)],
             [UiError "Error reading PDF: EOF marker not found"; UiProcessed;
              UiAnswer (ObjStr connection_message)]).
Proof.
  destruct (upload_always_reports_success (λ _ : unit, "") refusing
              broken_upload_run new_session "report.pdf" broken_pdf eq_refl)
    as (ed & self' & errors & context & Hproc & Hctx & ->).
  vm_compute in Hproc. injection Hproc as <- _ <-.
  vm_compute in Hctx. injection Hctx as <-.
  reflexivity.
Defined.

(** A session with a document and one turn, and a run in which "Get
    Answer" is pressed on an empty question and one quick question is
    pressed. *)
Definition session_with_turn : session unit :=
  Session (Some (Extraction_ None (Some ∅) (Some "Revenue: 5")))
          [("What was revenue?", ObjStr "Revenue was $5.")].

Definition quick_profit_run : run_inputs unit :=
  RunInputs None "" true (λ q, bool_decide (q = "What was the net profit?")).

Lemma chat_history_appended_witness :
  ∃ context,
    Some "Revenue: 5" = Some context
    ∧ [("What was revenue?", ObjStr "Revenue was $5.");
       ("What was the net profit?", ObjStr connection_message)]
      = chat_history session_with_turn
        ++ map (λ q, (q, answer_to refusing context q)) (asked quick_profit_run).
Proof.
  apply (chat_history_appended (λ _ : unit, "") refusing quick_profit_run
           session_with_turn
           (Session (Some (Extraction_ None (Some ∅) (Some "Revenue: 5")))
              [("What was revenue?", ObjStr "Revenue was $5.");
               ("What was the net profit?", ObjStr connection_message)])
           [UiAnswer (ObjStr connection_message)]).
  - intros ed [= <-]. by eexists.
  - reflexivity.
Defined.

Lemma name_without_pdf_suffix_read_as_workbook_witness :
  main (λ _ : unit, "") refusing
    (RunInputs (Some ("REPORT.PDF",
                      Upload (Returns [Returns "Revenue: 5"])
                             (Raises (Exn OtherException "File is not a zip file"))))
       "" false (λ _, false)) new_session
  = main (λ _ : unit, "") refusing
      (RunInputs (Some ("REPORT.PDF",
                        Upload (Raises (Exn OtherException "EOF marker not found"))
                               (Raises (Exn OtherException "File is not a zip file"))))
         "" false (λ _, false)) new_session
  ∧ sidebar (λ _ : unit, "")
      (RunInputs (Some ("REPORT.PDF",
                        Upload (Returns [Returns "Revenue: 5"])
                               (Raises (Exn OtherException "File is not a zip file"))))
         "" false (λ _, false)) new_session
    = Returns (Session (Some (Extraction_ (Some []) (Some ∅) (Some ""))) [],
               [UiError "Error reading Excel file: File is not a zip file"; UiProcessed]).
Proof.
  apply (name_without_pdf_suffix_read_as_workbook (λ _ : unit, "") refusing
           "REPORT.PDF" (Returns [Returns "Revenue: 5"])
           (Raises (Exn OtherException "EOF marker not found"))
           (Raises (Exn OtherException "File is not a zip file"))
           "" false (λ _, false) new_session).
  reflexivity.
Defined.
